(** * Gnosis Safe deployment helpers

    A shallow embedding of
    [packages/valory/skills/price_estimation_abci/helpers/gnosis_safe.py]:
    the Planner [get_deploy_safe_tx] and the Builder
    [_build_tx_deploy_proxy_contract_with_nonce].

    The two functions are sequences of queries to chain clients, dictionary
    updates and [raise] statements.  They are embedded in a small monad that
    threads a log of every query (so that "which client was asked what, and
    in which order" can be stated) and carries Python exceptions as a sum.
    The answers of the chain, of the ABI encoder and of the operating
    system's random source are fields of an environment record: theorems
    quantify over every environment. *)

From Stdlib Require Import ZArith String List Lia.
From stdpp Require Import base gmap strings list.

Open Scope string_scope.
Open Scope list_scope.
Open Scope Z_scope.

(** ** Values *)

Definition Address := string.
Definition Bytes := list Byte.byte.

(** The values stored in a [TxParams] dictionary. *)
Inductive PyVal :=
| VInt (n : Z)
| VStr (s : string)
| VBytes (b : Bytes).

(** [TxParams] is a Python [dict] with string keys. *)
Abbreviation TxParams := (gmap string PyVal).

(** Python exceptions.  [ValueError], [KeyError] and [TypeError] are the
    ones the helpers and the dictionary operations raise themselves.  A
    failed query to a node raises [IOError] when the node could not be
    reached (connection refused, timeout: the exceptions of the transport
    derive from [IOError]) and [ClientError] otherwise (an error response of
    the node, a reverted call). *)
Inductive exn :=
| ValueError (msg : string)
| KeyError (key : string)
| TypeError (msg : string)
| ClientError (msg : string)
| IOError (msg : string).

(** ** Constants of the module (lines 39-43) and of [gnosis.eth.constants] *)

Definition SAFE_CONTRACT : Address := "0xd9Db270c1B5E3Bd161E8c8503c55cEABeE709552".
Definition DEFAULT_CALLBACK_HANDLER : Address := "0xf48f2B2d2a534e402487b3ee7C18c33Aec0Fe5e4".
Definition PROXY_FACTORY_CONTRACT : Address := "0xa6B71E26C5e0845f74c812102Ca7114b6a896AB2".
Definition MULTISEND_CONTRACT : Address := "0xA238CBeb142c10Ef7Ad8442C6D1f9E89e07e7761".
Definition MULTISEND_CALL_ONLY_CONTRACT : Address := "0x40A2aCCbd92BCA938b02010E17A5b8929b49130D".
Definition NULL_ADDRESS : Address := "0x0000000000000000000000000000000000000000".

(** The three [ValueError]s the Planner raises, under the names the
    specification gives them. *)
Definition InvalidThreshold : exn :=
  ValueError "Threshold cannot be bigger than the number of unique owners".
Definition InsufficientFunds : exn :=
  ValueError "Client does not have any funds".
Definition UnsupportedNetwork : exn :=
  ValueError "Network not supported".

(** ** Chain clients and the environment *)

(** The answers of one node.  Every query may fail. *)
Record ChainClient := {
  get_balance : Address -> exn + Z;
  get_network : exn + string;
  getCode : Address -> exn + Bytes;
  eth_call : TxParams -> exn + Address;
  estimateGas : TxParams -> exn + Z;
  gasPrice : exn + Z;
  chainId : exn + Z;
  get_transaction_count : Address -> exn + Z
}.

(** The module talks to two clients: the one it constructs from its
    [ethereum_node_url] argument (line 87) and the process-wide
    [web3.auto.w3] it imports (line 33). *)
Inductive ClientRef :=
| NodeClient (url : string)
| AutoClient.

Record World := {
  (** [EthereumClient(node_url)]: the node behind a URL *)
  EthereumClient : string -> ChainClient;
  (** [web3.auto.w3] *)
  w3 : ChainClient;
  (** [helpers.base.checksum_address], defined in another module of the
      package: a parameter here, and it may raise *)
  checksum_address : string -> exn + Address;
  (** [round(w3.fromWei(balance, "ether"), 6)], only used in a log line *)
  fromWei_round6 : Z -> exn + string;
  (** ABI encoding of [setup(...)] of the Safe contract *)
  encode_setup :
    list Address -> Z -> Address -> Bytes -> Address -> Address -> Z ->
    Address -> exn + Bytes;
  (** ABI encoding of [createProxyWithNonce(...)] of the proxy factory *)
  encode_createProxyWithNonce : Address -> Bytes -> Z -> exn + Bytes;
  (** [secrets.SystemRandom().randint(lo, hi)]: what the call returns,
      call by call; how the library reads the operating system's source to
      get there is its own matter *)
  randint : nat -> Z -> Z -> Z
}.

(** ** Effects *)

Inductive Rpc :=
| GetBalance (a : Address)
| GetNetwork
| GetCode (a : Address)
| Call (tx : TxParams)
| EstimateGas (tx : TxParams)
| GasPrice
| ChainId
| GetTransactionCount (a : Address).

(** The two [logging.info] lines, kept as their arguments. *)
Inductive LogRecord :=
| LogBalance (network : string) (account : Address) (ether : string)
| LogCreating (owners : list Address) (threshold : Z)
              (fallback_handler : Address) (salt_nonce : Z).

Inductive Event :=
| EvRpc (c : ClientRef) (q : Rpc)
| EvSystemRandom (lo hi : Z)
| EvLog (r : LogRecord).

Record St := {
  trace : list Event;   (** oldest event first *)
  draws : nat           (** calls of [randint] so far *)
}.

Definition st0 : St := {| trace := []; draws := 0 |}.

Definition M (A : Type) : Type := St -> St * (exn + A).

#[global] Instance M_ret : MRet M := fun A a s => (s, inr a).
#[global] Instance M_bind : MBind M := fun A B f m s =>
  match m s with
  | (s', inl e) => (s', inl e)
  | (s', inr a) => f a s'
  end.

Definition raise {A} (e : exn) : M A := fun s => (s, inl e).

Definition lift {A} (r : exn + A) : M A := fun s => (s, r).

(** Appending an event to the log. *)
Definition log (e : Event) (s : St) : St :=
  {| trace := trace s ++ [e]; draws := draws s |}.

Definition emit (e : Event) : M unit := fun s => (log e s, inr tt).

(** Chain I/O: the events that are queries to a chain client. *)
Definition is_rpc (e : Event) : bool :=
  match e with EvRpc _ _ => true | _ => false end.

Definition chain_calls (s : St) : list Event :=
  List.filter is_rpc (trace s).

(** ** The operations of the libraries the module calls *)

Section Helpers.

Variable W : World.

Definition client (c : ClientRef) : ChainClient :=
  match c with
  | NodeClient url => EthereumClient W url
  | AutoClient => w3 W
  end.

(** A query to a client: logged, then answered by the environment. *)
Definition ask {A} (c : ClientRef) (q : Rpc) (r : exn + A) : M A :=
  _ ← emit (EvRpc c q); lift r.

Definition client_get_balance (c : ClientRef) (a : Address) : M Z :=
  ask c (GetBalance a) (get_balance (client c) a).
Definition client_get_network (c : ClientRef) : M string :=
  ask c GetNetwork (get_network (client c)).
Definition client_getCode (c : ClientRef) (a : Address) : M Bytes :=
  ask c (GetCode a) (getCode (client c) a).
Definition client_call (c : ClientRef) (tx : TxParams) : M Address :=
  ask c (Call tx) (eth_call (client c) tx).
Definition client_estimateGas (c : ClientRef) (tx : TxParams) : M Z :=
  ask c (EstimateGas tx) (estimateGas (client c) tx).
Definition client_gasPrice (c : ClientRef) : M Z :=
  ask c GasPrice (gasPrice (client c)).
Definition client_chainId (c : ClientRef) : M Z :=
  ask c ChainId (chainId (client c)).
(** The event is the count request itself.  What the auto provider of
    [web3.auto.w3] does to find its endpoint before the first request of a
    process is the provider's own traffic and is not part of the log. *)
Definition client_get_transaction_count (c : ClientRef) (a : Address) : M Z :=
  ask c (GetTransactionCount a) (get_transaction_count (client c) a).

(** [secrets.SystemRandom().randint(lo, hi)]: one call, logged with its
    bounds. *)
Definition SystemRandom_randint (lo hi : Z) : M Z := fun s =>
  ({| trace := trace s ++ [EvSystemRandom lo hi]; draws := S (draws s) |},
   inr (randint W (draws s) lo hi)).

(** [EthereumClient(node_url)] (line 87).  The constructor of the gnosis
    library asks the node for its network before it returns
    ([self.get_network()], an [eth_chainId] request, to decide on a
    middleware).  Its [try] catches [IOError]; every other error leaves the
    constructor.  A network that was obtained stays cached on the client. *)
Definition construction (answer : exn + string) : exn + option string :=
  match answer with
  | inr network => inr (Some network)
  | inl (IOError _) => inr None
  | inl e => inl e
  end.

Definition EthereumClient_init (c : ClientRef) : M (option string) :=
  ask c GetNetwork (construction (get_network (client c))).

(** [ethereum_client.get_network()] on a client whose constructor has
    run: the cached network, and a query only when there is none. *)
Definition cached_get_network (c : ClientRef) (cache : option string)
    : M string :=
  match cache with
  | Some network => mret network
  | None => client_get_network c
  end.

(** Dictionary reads [d[k]] where the code goes on to use an integer or
    bytes. *)
Definition getitem_int (d : TxParams) (k : string) : M Z :=
  match d !! k with
  | Some (VInt n) => mret n
  | Some _ => raise (TypeError "unsupported operand type(s) for +")
  | None => raise (KeyError k)
  end.

Definition getitem_bytes (d : TxParams) (k : string) : M Bytes :=
  match d !! k with
  | Some (VBytes b) => mret b
  | Some _ => raise (TypeError "cannot convert to HexBytes")
  | None => raise (KeyError k)
  end.

(** [dict.setdefault(k, v)] *)
Definition setdefault (k : string) (v : PyVal) (d : TxParams) : TxParams :=
  match d !! k with
  | Some _ => d
  | None => <[k := v]> d
  end.

(** A web3 contract object, and a contract function bound to its
    arguments (with the call data they encode to). *)
Record Contract := {
  contract_client : ClientRef;
  contract_address : Address
}.

Record ContractFunction := {
  fn_contract : Contract;
  fn_data : Bytes
}.

(** [get_safe_V1_3_0_contract(w3, address)] and
    [get_proxy_factory_contract(w3, address)] only build the object. *)
Definition get_safe_V1_3_0_contract (c : ClientRef) (a : Address) : Contract :=
  {| contract_client := c; contract_address := a |}.
Definition get_proxy_factory_contract (c : ClientRef) (a : Address) : Contract :=
  {| contract_client := c; contract_address := a |}.

(** [contract.functions.setup(...)] *)
Definition functions_setup (k : Contract) (owners : list Address) (threshold : Z)
    (to : Address) (data : Bytes) (fallback_handler payment_token : Address)
    (payment : Z) (payment_receiver : Address) : M ContractFunction :=
  d ← lift (encode_setup W owners threshold to data fallback_handler
              payment_token payment payment_receiver);
  mret {| fn_contract := k; fn_data := d |}.

(** [contract.functions.createProxyWithNonce(...)] *)
Definition functions_createProxyWithNonce (k : Contract) (master_copy : Address)
    (initializer : Bytes) (salt_nonce : Z) : M ContractFunction :=
  d ← lift (encode_createProxyWithNonce W master_copy initializer salt_nonce);
  mret {| fn_contract := k; fn_data := d |}.

(** web3's [prepare_transaction]: a copy of the caller's parameters,
    addressed to the contract and carrying the encoded call. *)
Definition prepare_transaction (f : ContractFunction) (transaction : TxParams)
    : TxParams :=
  <["data" := VBytes (fn_data f)]>
    (setdefault "to" (VStr (contract_address (fn_contract f))) transaction).

(** web3's [ContractFunction.call(transaction)]: a read-only simulation of
    the call on the contract's client. *)
Definition fn_call (f : ContractFunction) (transaction : TxParams) : M Address :=
  match transaction !! "data" with
  | Some _ => raise (ValueError "Cannot set data in call transaction")
  | None =>
      client_call (contract_client (fn_contract f))
                  (prepare_transaction f transaction)
  end.

(** web3's [fill_transaction_defaults]: every key of [value], [data],
    [gas], [gasPrice], [chainId] that the transaction lacks gets its
    default; [gas] defaults to the node's estimate for the transaction,
    and keys that are present are kept. *)
Definition fill_transaction_defaults (c : ClientRef) (transaction : TxParams)
    : M TxParams :=
  let d := setdefault "value" (VInt 0) transaction in
  let d := setdefault "data" (VBytes []) d in
  d ← match transaction !! "gas" with
      | Some _ => mret d
      | None => g ← client_estimateGas c transaction; mret (<["gas" := VInt g]> d)
      end;
  d ← match transaction !! "gasPrice" with
      | Some _ => mret d
      | None => p ← client_gasPrice c; mret (<["gasPrice" := VInt p]> d)
      end;
  match transaction !! "chainId" with
  | Some _ => mret d
  | None => i ← client_chainId c; mret (<["chainId" := VInt i]> d)
  end.

(** web3's [ContractFunction.buildTransaction(transaction)] *)
Definition fn_buildTransaction (f : ContractFunction) (transaction : TxParams)
    : M TxParams :=
  match transaction !! "data", transaction !! "to" with
  | Some _, _ => raise (ValueError "Cannot set data in build transaction")
  | None, Some _ =>
      raise (ValueError "Cannot set to in contract call build transaction")
  | None, None =>
      fill_transaction_defaults (contract_client (fn_contract f))
                                (prepare_transaction f transaction)
  end.

(** [gnosis.safe.ProxyFactory(address, ethereum_client)] *)
Record ProxyFactory := {
  factory_address : Address;            (** [proxy_factory.address] *)
  factory_ethereum_client : ClientRef   (** [proxy_factory.ethereum_client] *)
}.

(** ** The module's functions *)

(** Lines 46-48. *)
Definition _get_nonce : M Z := SystemRandom_randint 0 (2 ^ 256 - 1).

(** Lines 140-186. *)
Definition _build_tx_deploy_proxy_contract_with_nonce
    (proxy_factory : ProxyFactory) (master_copy : Address) (address : Address)
    (initializer : Bytes) (salt_nonce : Z)
    (gas gas_price nonce : option Z) : M (TxParams * Address) :=
  let proxy_factory_contract :=
    get_proxy_factory_contract (factory_ethereum_client proxy_factory)
                               (factory_address proxy_factory) in
  create_proxy_fn ← functions_createProxyWithNonce proxy_factory_contract
                      master_copy initializer salt_nonce;
  let tx_parameters : TxParams := {["from" := VStr address]} in
  contract_address ← fn_call create_proxy_fn tx_parameters;
  let tx_parameters :=
    match gas_price with
    | Some p => <["gasPrice" := VInt p]> tx_parameters
    | None => tx_parameters
    end in
  let tx_parameters :=
    match gas with
    | Some g => <["gas" := VInt g]> tx_parameters
    | None => tx_parameters
    end in
  let tx_parameters :=
    match nonce with
    | Some n => <["nonce" := VInt n]> tx_parameters
    | None => tx_parameters
    end in
  tx ← fn_buildTransaction create_proxy_fn tx_parameters;
  g ← getitem_int tx "gas";
  let tx := <["gas" := VInt (g + 50000)]> tx in
  n ← client_get_transaction_count AutoClient address;
  let tx := <["nonce" := VInt n]> tx in
  mret (tx, contract_address).

(** Lines 51-137.  [URI(...)] is a type cast; [not b] on an integer tests
    [b = 0] and on bytes tests emptiness; [or] evaluates its right operand
    only when the left one is false. *)
Definition get_deploy_safe_tx (ethereum_node_url : string) (sender : string)
    (owners : list Address) (threshold : Z) (salt_nonce : option Z)
    : M (TxParams * Address) :=
  let node_url := ethereum_node_url in
  salt_nonce ← match salt_nonce with
               | Some n => mret n
               | None => _get_nonce
               end;
  let to := NULL_ADDRESS in
  let data : Bytes := [] in
  let payment_token := NULL_ADDRESS in
  let payment := 0 in
  let payment_receiver := NULL_ADDRESS in
  if (Z.of_nat (length owners) <? threshold)%Z then raise InvalidThreshold
  else
    let safe_contract_address := SAFE_CONTRACT in
    let proxy_factory_address := PROXY_FACTORY_CONTRACT in
    let fallback_handler := DEFAULT_CALLBACK_HANDLER in
    let ethereum_client := NodeClient node_url in
    network_cache ← EthereumClient_init ethereum_client;
    account_address ← lift (checksum_address W sender);
    account_balance ← client_get_balance ethereum_client account_address;
    _ ← (if (account_balance =? 0)%Z then raise InsufficientFunds
         else
           ether_account_balance ← lift (fromWei_round6 W account_balance);
           network ← cached_get_network ethereum_client network_cache;
           emit (EvLog (LogBalance network account_address
                                   ether_account_balance)));
    safe_code ← client_getCode ethereum_client safe_contract_address;
    unsupported ← match safe_code with
                  | [] => mret true
                  | _ :: _ =>
                      factory_code ← client_getCode ethereum_client
                                       proxy_factory_address;
                      mret (match factory_code with
                            | [] => true
                            | _ :: _ => false
                            end)
                  end;
    if unsupported : bool then raise UnsupportedNetwork
    else
      _ ← emit (EvLog (LogCreating owners threshold fallback_handler
                                   salt_nonce));
      let safe_contract :=
        get_safe_V1_3_0_contract ethereum_client safe_contract_address in
      setup_fn ← functions_setup safe_contract owners threshold to data
                   fallback_handler payment_token payment payment_receiver;
      setup_tx ← fn_buildTransaction setup_fn
                   (<["gasPrice" := VInt 1]> {["gas" := VInt 1]});
      safe_creation_tx_data ← getitem_bytes setup_tx "data";
      let proxy_factory :=
        {| factory_address := proxy_factory_address;
           factory_ethereum_client := ethereum_client |} in
      _build_tx_deploy_proxy_contract_with_nonce proxy_factory
        safe_contract_address account_address safe_creation_tx_data
        salt_nonce None None None.

End Helpers.

(** Running a computation from the empty log. *)
Definition run {A} (m : M A) : St * (exn + A) := m st0.
Definition result {A} (m : M A) : exn + A := snd (run m).
Definition events {A} (m : M A) : list Event := trace (fst (run m)).
Definition rpcs {A} (m : M A) : list Event := chain_calls (fst (run m)).

(** ** Vocabulary of the statements *)

(** Appending several events to the log. *)
Definition logs (es : list Event) (s : St) : St :=
  {| trace := trace s ++ es; draws := draws s |}.

(** Line 74: the salt the Planner goes on with, and the state it leaves. *)
Definition salt_of (W : World) (salt_nonce : option Z) (s : St) : Z :=
  match salt_nonce with
  | Some n => n
  | None => randint W (draws s) 0 (2 ^ 256 - 1)
  end.

Definition after_salt (salt_nonce : option Z) (s : St) : St :=
  match salt_nonce with
  | Some _ => s
  | None => {| trace := trace s ++ [EvSystemRandom 0 (2 ^ 256 - 1)];
               draws := S (draws s) |}
  end.

(** The number of distinct owner addresses of a request. *)
Definition distinct_owners (owners : list Address) : nat :=
  length (remove_dups owners).

(** The invariant of a deployment request, as the specification words it. *)
Definition request_invariant (owners : list Address) (threshold : Z) : Prop :=
  1 <= threshold /\ threshold <= Z.of_nat (distinct_owners owners).

(** A run that ends in [InvalidThreshold] without a single query to a
    chain client. *)
Definition rejected_before_chain_io {A} (m : M A) : Prop :=
  result m = inl InvalidThreshold /\ rpcs m = [].

(** The transaction the proxy factory's [createProxyWithNonce] is simulated
    and estimated with: [{"from": address}], addressed to the factory and
    carrying the call data. *)
Definition call_transaction (factory : Address) (address : Address) (d : Bytes)
    : TxParams :=
  <["data" := VBytes d]>
    (<["to" := VStr factory]> {["from" := VStr address]}).

(** The transaction the Builder returns when no override is given. *)
Definition planned_transaction (factory address : Address) (d : Bytes)
    (gas gas_price chain_id count : Z) : TxParams :=
  <["nonce" := VInt count]>
    (<["gas" := VInt (gas + 50000)]>
       (<["chainId" := VInt chain_id]>
          (<["gasPrice" := VInt gas_price]>
             (<["gas" := VInt gas]>
                (<["value" := VInt 0]>
                   (call_transaction factory address d)))))).

(** What the environment answers along a run of the Planner that reaches
    its end. *)
Record Answers := {
  account : Address;      (** checksummed sender *)
  balance : Z;
  ether : string;
  network : string;
  safe_code : Bytes;
  factory_code : Bytes;
  initializer : Bytes;    (** encoded [setup] call *)
  chain : Z;              (** chain id *)
  payload : Bytes;        (** encoded [createProxyWithNonce] call *)
  proxy : Address;        (** simulated return value *)
  estimate : Z;
  price : Z;
  count : Z               (** transaction count of the sender *)
}.

Definition answered (W : World) (url sender : string) (owners : list Address)
    (threshold salt : Z) (r : Answers) : Prop :=
  let node := EthereumClient W url in
  let tx := call_transaction PROXY_FACTORY_CONTRACT (account r) (payload r) in
  checksum_address W sender = inr (account r)
  /\ get_balance node (account r) = inr (balance r)
  /\ fromWei_round6 W (balance r) = inr (ether r)
  /\ get_network node = inr (network r)
  /\ getCode node SAFE_CONTRACT = inr (safe_code r)
  /\ getCode node PROXY_FACTORY_CONTRACT = inr (factory_code r)
  /\ encode_setup W owners threshold NULL_ADDRESS [] DEFAULT_CALLBACK_HANDLER
       NULL_ADDRESS 0 NULL_ADDRESS = inr (initializer r)
  /\ chainId node = inr (chain r)
  /\ encode_createProxyWithNonce W SAFE_CONTRACT (initializer r) salt
     = inr (payload r)
  /\ eth_call node tx = inr (proxy r)
  /\ estimateGas node tx = inr (estimate r)
  /\ gasPrice node = inr (price r)
  /\ get_transaction_count (w3 W) (account r) = inr (count r).

(** The preconditions a request has to pass. *)
Definition checks_pass (threshold : Z) (owners : list Address) (r : Answers)
    : Prop :=
  threshold <= Z.of_nat (length owners)
  /\ balance r <> 0 /\ safe_code r <> [] /\ factory_code r <> [].

(** The events of the precondition checks, and of a whole successful run.
    The network is asked for by the client's constructor, before the
    balance; the log line uses the cached answer. *)
Definition funds_events (url : string) (a : Address) (net eth : string)
    : list Event :=
  [EvRpc (NodeClient url) GetNetwork;
   EvRpc (NodeClient url) (GetBalance a);
   EvLog (LogBalance net a eth)].

Definition code_events (url : string) (code : Bytes) : list Event :=
  match code with
  | [] => [EvRpc (NodeClient url) (GetCode SAFE_CONTRACT)]
  | _ :: _ => [EvRpc (NodeClient url) (GetCode SAFE_CONTRACT);
               EvRpc (NodeClient url) (GetCode PROXY_FACTORY_CONTRACT)]
  end.

Definition build_events (url : string) (owners : list Address)
    (threshold salt : Z) (r : Answers) : list Event :=
  let tx := call_transaction PROXY_FACTORY_CONTRACT (account r) (payload r) in
  [EvLog (LogCreating owners threshold DEFAULT_CALLBACK_HANDLER salt);
   EvRpc (NodeClient url) ChainId;
   EvRpc (NodeClient url) (Call tx);
   EvRpc (NodeClient url) (EstimateGas tx);
   EvRpc (NodeClient url) GasPrice;
   EvRpc (NodeClient url) ChainId;
   EvRpc AutoClient (GetTransactionCount (account r))].

(** The parameters the Builder hands to [buildTransaction] (lines
    170-180): [{"from": address}] with the overrides that are given. *)
Definition override (k : string) (o : option Z) (d : TxParams) : TxParams :=
  match o with
  | Some v => <[k := VInt v]> d
  | None => d
  end.

Definition builder_parameters (address : Address) (gas gas_price nonce : option Z)
    : TxParams :=
  override "nonce" nonce
    (override "gas" gas (override "gasPrice" gas_price {["from" := VStr address]})).

(** The bound [createProxyWithNonce] call of a factory. *)
Definition create_proxy_fn (pf : ProxyFactory) (d : Bytes) : ContractFunction :=
  {| fn_contract := get_proxy_factory_contract (factory_ethereum_client pf)
                                               (factory_address pf);
     fn_data := d |}.

(** A node that answers the queries [buildTransaction] may make. *)
Definition quotes (c : ChainClient) : Prop :=
  (forall t, exists g, estimateGas c t = inr g)
  /\ (exists p, gasPrice c = inr p)
  /\ (exists i, chainId c = inr i).

(** A field of the transaction a run returns, and the address it
    returns with it. *)
Definition field (k : string) (r : exn + TxParams * Address) : option PyVal :=
  match r with
  | inr (tx, _) => tx !! k
  | inl _ => None
  end.

Definition returned_address (r : exn + TxParams * Address) : option Address :=
  match r with
  | inr (_, a) => Some a
  | inl _ => None
  end.

(** Transaction-count queries sent to a node built from a URL. *)
Definition is_node_count_query (e : Event) : bool :=
  match e with
  | EvRpc (NodeClient _) (GetTransactionCount _) => true
  | _ => false
  end.

(** Draws from the random source. *)
Definition is_draw (e : Event) : bool :=
  match e with
  | EvSystemRandom _ _ => true
  | _ => false
  end.

(** ** A concrete environment

    A few nodes and their answers, enough to run the functions on explicit
    inputs.  The encoders are stand-ins that keep the selector
    and the integers of a call apart; they are not the ABI encoding. *)
Module Sample.

Definition alice : Address := "0x00000000000000000000000000000000000000A1".
Definition bob : Address := "0x00000000000000000000000000000000000000B2".
Definition carol : Address := "0x00000000000000000000000000000000000000C3".
Definition sender : Address := "0x00000000000000000000000000000000000000D4".
Definition predicted : Address := "0x5AFE5AFE5AFE5AFE5AFE5AFE5AFE5AFE5AFE5AFE".

Definition word (n : Z) : Bytes :=
  match Byte.of_N (Z.to_N (n mod 256)) with
  | Some b => [b]
  | None => []
  end.

Definition code : Bytes := [Byte.x60; Byte.x80; Byte.x60; Byte.x40].

(** A node with funds for everybody and the Safe contracts deployed. *)
Definition funded (count : Z) : ChainClient := {|
  get_balance := fun _ => inr (10 ^ 18);
  get_network := inr "GOERLI";
  getCode := fun _ => inr code;
  eth_call := fun _ => inr predicted;
  estimateGas := fun _ => inr 250000;
  gasPrice := inr 20;
  chainId := inr 5;
  get_transaction_count := fun _ => inr count
|}.

(** A node without funds and without the Safe contracts. *)
Definition bare : ChainClient := {|
  get_balance := fun _ => inr 0;
  get_network := inr "UNKNOWN";
  getCode := fun _ => inr [];
  eth_call := fun _ => inl (ClientError "execution reverted");
  estimateGas := fun _ => inl (ClientError "execution reverted");
  gasPrice := inr 1;
  chainId := inr 1337;
  get_transaction_count := fun _ => inr 0
|}.

(** A node with funds where only the Safe master copy is deployed. *)
Definition no_factory : ChainClient := {|
  get_balance := fun _ => inr 5;
  get_network := inr "UNKNOWN";
  getCode := fun a => if String.eqb a SAFE_CONTRACT then inr code else inr [];
  eth_call := fun _ => inl (ClientError "execution reverted");
  estimateGas := fun _ => inl (ClientError "execution reverted");
  gasPrice := inr 1;
  chainId := inr 1337;
  get_transaction_count := fun _ => inr 0
|}.

Definition world : World := {|
  EthereumClient := fun url =>
    if String.eqb url "http://bare:8545" then bare
    else if String.eqb url "http://nofactory:8545" then no_factory
    else if String.eqb url "http://other:8545" then funded 11
    else funded 7;
  w3 := funded 3;
  checksum_address := fun a => inr a;
  fromWei_round6 := fun _ => inr "1.0";
  encode_setup := fun owners threshold _ _ _ _ payment _ =>
    inr ([Byte.xb6; Byte.x3e; Byte.x80; Byte.x0d]
           ++ word (Z.of_nat (length owners)) ++ word threshold
           ++ word payment)%list;
  encode_createProxyWithNonce := fun _ initializer salt_nonce =>
    inr ([Byte.x16; Byte.x88; Byte.xf0; Byte.xb9] ++ word salt_nonce
           ++ initializer)%list;
  randint := fun n lo hi => lo + (Z.of_nat n + 2 ^ 300 + 12345) mod (hi - lo + 1)
|}.

Definition factory : ProxyFactory := {|
  factory_address := PROXY_FACTORY_CONTRACT;
  factory_ethereum_client := NodeClient "http://node:8545"
|}.

(** The answers along the run for owners alice, bob and carol, threshold 2
    and salt 42, on either funded node. *)
Definition setup_data : Bytes :=
  [Byte.xb6; Byte.x3e; Byte.x80; Byte.x0d; Byte.x03; Byte.x02; Byte.x00].

Definition answers : Answers := {|
  account := sender;
  balance := 10 ^ 18;
  ether := "1.0";
  network := "GOERLI";
  safe_code := code;
  factory_code := code;
  initializer := setup_data;
  chain := 5;
  payload := [Byte.x16; Byte.x88; Byte.xf0; Byte.xb9; Byte.x2a] ++ setup_data;
  proxy := predicted;
  estimate := 250000;
  price := 20;
  count := 3
|}.

End Sample.


(** ** Vocabulary of the statements about every run *)

Definition client_eqb (c c' : ClientRef) : bool :=
  match c, c' with
  | NodeClient u, NodeClient u' => String.eqb u u'
  | AutoClient, AutoClient => true
  | _, _ => false
  end.

Definition is_count_query (q : Rpc) : bool :=
  match q with
  | GetTransactionCount _ => true
  | _ => false
  end.

(** The events a run may log when it works with the client [c]: queries
    to [c] other than the transaction count, the transaction count asked of
    [web3.auto.w3], and log lines.  Draws from the random source are not
    among them. *)
Definition allowed_event (c : ClientRef) (e : Event) : bool :=
  match e with
  | EvRpc c' q =>
      if is_count_query q then client_eqb c' AutoClient else client_eqb c' c
  | EvSystemRandom _ _ => false
  | EvLog _ => true
  end.

(** What can be said of the queries to nodes built from a URL when a run
    works with the client [c]: they go to [c] and none of them asks for the
    transaction count.  Draws from the random source are excluded. *)
Definition node_event (c : ClientRef) (e : Event) : bool :=
  match e with
  | EvRpc (NodeClient u) q =>
      client_eqb (NodeClient u) c && negb (is_count_query q)
  | EvRpc AutoClient _ => true
  | EvSystemRandom _ _ => false
  | EvLog _ => true
  end.

(** Gas estimates asked of a node. *)
Definition is_estimate_query (e : Event) : bool :=
  match e with
  | EvRpc _ (EstimateGas _) => true
  | _ => false
  end.

(** A computation that, on every run and whatever its outcome, leaves the
    random source alone and only appends events that satisfy [p]. *)
Definition appends {A} (p : Event -> bool) (m : M A) : Prop :=
  forall s, draws (fst (m s)) = draws s
            /\ exists es, trace (fst (m s)) = trace s ++ es
                          /\ forallb p es = true.

(** Lines 91-137 of the Planner: what follows the balance query. *)
Definition after_balance_query (W : World) (url : string)
    (owners : list Address) (threshold salt_nonce : Z)
    (network_cache : option string)
    (account_address : Address) (account_balance : Z)
    : M (TxParams * Address) :=
  let ethereum_client := NodeClient url in
  _ ← (if (account_balance =? 0)%Z then raise InsufficientFunds
       else
         ether_account_balance ← lift (fromWei_round6 W account_balance);
         network ← cached_get_network W ethereum_client network_cache;
         emit (EvLog (LogBalance network account_address
                                 ether_account_balance)));
  safe_code ← client_getCode W ethereum_client SAFE_CONTRACT;
  unsupported ← match safe_code with
                | [] => mret true
                | _ :: _ =>
                    factory_code ← client_getCode W ethereum_client
                                     PROXY_FACTORY_CONTRACT;
                    mret (match factory_code with
                          | [] => true
                          | _ :: _ => false
                          end)
                end;
  if unsupported : bool then raise UnsupportedNetwork
  else
    _ ← emit (EvLog (LogCreating owners threshold DEFAULT_CALLBACK_HANDLER
                                 salt_nonce));
    let safe_contract :=
      get_safe_V1_3_0_contract ethereum_client SAFE_CONTRACT in
    setup_fn ← functions_setup W safe_contract owners threshold NULL_ADDRESS
                 [] DEFAULT_CALLBACK_HANDLER NULL_ADDRESS 0 NULL_ADDRESS;
    setup_tx ← fn_buildTransaction W setup_fn
                 (<["gasPrice" := VInt 1]> {["gas" := VInt 1]});
    safe_creation_tx_data ← getitem_bytes setup_tx "data";
    let proxy_factory :=
      {| factory_address := PROXY_FACTORY_CONTRACT;
         factory_ethereum_client := ethereum_client |} in
    _build_tx_deploy_proxy_contract_with_nonce W proxy_factory
      SAFE_CONTRACT account_address safe_creation_tx_data
      salt_nonce None None None.

(** ** An environment with failures

    Encoders that refuse integers outside [uint256] and addresses that
    are not hexadecimal strings of 42 characters, and nodes that fail one
    query each. *)
Module Strict.

Definition uint256 (n : Z) : bool := (0 <=? n) && (n <? 2 ^ 256).

Definition well_formed (a : string) : bool :=
  String.prefix "0x" a && (String.length a =? 42)%nat.

(** A node that answers everything but the balance query. *)
Definition no_balance : ChainClient := {|
  get_balance := fun _ => inl (ClientError "missing trie node");
  get_network := inr "GOERLI";
  getCode := fun _ => inr Sample.code;
  eth_call := fun _ => inr Sample.predicted;
  estimateGas := fun _ => inr 250000;
  gasPrice := inr 20;
  chainId := inr 5;
  get_transaction_count := fun _ => inr 7
|}.

(** A node that answers the network lookup with an error. *)
Definition nameless : ChainClient := {|
  get_balance := fun _ => inr (10 ^ 18);
  get_network := inl (ClientError "unknown chain id");
  getCode := fun _ => inr Sample.code;
  eth_call := fun _ => inr Sample.predicted;
  estimateGas := fun _ => inr 250000;
  gasPrice := inr 20;
  chainId := inr 5;
  get_transaction_count := fun _ => inr 7
|}.

(** A node on which the simulated call reverts. *)
Definition reverting : ChainClient := {|
  get_balance := fun _ => inr (10 ^ 18);
  get_network := inr "GOERLI";
  getCode := fun _ => inr Sample.code;
  eth_call := fun _ => inl (ClientError "execution reverted");
  estimateGas := fun _ => inr 250000;
  gasPrice := inr 20;
  chainId := inr 5;
  get_transaction_count := fun _ => inr 7
|}.

Definition world : World := {|
  EthereumClient := fun url =>
    if String.eqb url "http://nobalance:8545" then no_balance
    else if String.eqb url "http://nameless:8545" then nameless
    else if String.eqb url "http://reverting:8545" then reverting
    else Sample.funded 7;
  w3 := Sample.funded 3;
  checksum_address := fun a =>
    if well_formed a then inr a else inl (ValueError "invalid address");
  fromWei_round6 := fun _ => inr "1.0";
  encode_setup := fun owners threshold _ _ _ _ payment _ =>
    if uint256 threshold && uint256 payment then
      inr ([Byte.xb6; Byte.x3e; Byte.x80; Byte.x0d]
             ++ Sample.word (Z.of_nat (length owners))
             ++ Sample.word threshold ++ Sample.word payment)%list
    else inl (ValueError "could not identify the intended function");
  encode_createProxyWithNonce := fun _ initializer salt_nonce =>
    if uint256 salt_nonce then
      inr ([Byte.x16; Byte.x88; Byte.xf0; Byte.xb9] ++ Sample.word salt_nonce
             ++ initializer)%list
    else inl (ValueError "could not identify the intended function");
  randint := fun n lo hi => lo + Z.of_nat n mod (hi - lo + 1)
|}.

Definition factory (url : string) : ProxyFactory := {|
  factory_address := PROXY_FACTORY_CONTRACT;
  factory_ethereum_client := NodeClient url
|}.

End Strict.

(** ** Tactics *)

(** Unfolding the Planner down to the answers of the environment. *)
Ltac unfold_planner :=
  unfold get_deploy_safe_tx;
  cbv [mbind M_bind mret M_ret raise lift ask emit EthereumClient_init
       cached_get_network client_get_balance client_get_network
       client_getCode].

(** Lookups in dictionaries built by insertion. *)
Ltac dict :=
  repeat first
    [ rewrite lookup_insert_eq
    | rewrite lookup_insert_ne by done
    | rewrite lookup_singleton_eq
    | rewrite lookup_singleton_ne by done
    | rewrite lookup_empty ].

(** Projections of the contract objects. *)
Ltac projections :=
  cbn [contract_client contract_address fn_contract fn_data create_proxy_fn
       get_proxy_factory_contract get_safe_V1_3_0_contract
       factory_address factory_ethereum_client].

(** Side conditions on the sample environment. *)
Ltac sample_run :=
  first [ reflexivity | discriminate | simpl; lia
        | repeat split; first [reflexivity | discriminate | simpl; lia] ].

(** ** Reasoning about runs *)

Lemma chain_calls_log_rpc c q s :
  chain_calls (log (EvRpc c q) s) = chain_calls s ++ [EvRpc c q].
Proof. unfold chain_calls, log. simpl. now rewrite List.filter_app. Qed.

(** *** Logs *)

Lemma logs_logs es es' s : logs es' (logs es s) = logs (es ++ es') s.
Proof. unfold logs. simpl. now rewrite <- app_assoc. Qed.

Lemma log_is_logs e s : log e s = logs [e] s.
Proof. reflexivity. Qed.

Lemma chain_calls_logs es s :
  chain_calls (logs es s) = chain_calls s ++ List.filter is_rpc es.
Proof. unfold chain_calls, logs. simpl. apply List.filter_app. Qed.

Lemma chain_calls_after_salt salt_nonce s :
  chain_calls (after_salt salt_nonce s) = chain_calls s.
Proof.
  destruct salt_nonce as [n|]; [reflexivity|].
  unfold chain_calls, after_salt. simpl.
  rewrite List.filter_app. apply app_nil_r.
Qed.

Lemma planner_draws_salt W url sender owners threshold s :
  get_deploy_safe_tx W url sender owners threshold None s
  = get_deploy_safe_tx W url sender owners threshold
      (Some (salt_of W None s)) (after_salt None s).
Proof. reflexivity. Qed.

Lemma planner_threshold_run W url sender owners threshold salt_nonce s :
  Z.of_nat (length owners) < threshold ->
  get_deploy_safe_tx W url sender owners threshold salt_nonce s
  = (after_salt salt_nonce s, inl InvalidThreshold).
Proof.
  intros Hlt. apply Z.ltb_lt in Hlt.
  destruct salt_nonce as [n|]; [|rewrite planner_draws_salt];
    unfold_planner; now rewrite Hlt.
Qed.

Lemma planner_no_funds_run W url sender owners threshold salt_nonce s
    cache a :
  threshold <= Z.of_nat (length owners) ->
  construction (get_network (EthereumClient W url)) = inr cache ->
  checksum_address W sender = inr a ->
  get_balance (EthereumClient W url) a = inr 0 ->
  get_deploy_safe_tx W url sender owners threshold salt_nonce s
  = (logs [EvRpc (NodeClient url) GetNetwork;
           EvRpc (NodeClient url) (GetBalance a)] (after_salt salt_nonce s),
     inl InsufficientFunds).
Proof.
  intros Hle Hc Ha Hb. apply Z.ltb_ge in Hle.
  destruct salt_nonce as [n|]; [|rewrite planner_draws_salt];
    unfold_planner; rewrite Hle; cbn [client]; rewrite Hc, Ha, Hb; simpl;
    rewrite !log_is_logs, !logs_logs; reflexivity.
Qed.

(** *** Dictionaries *)

Lemma setdefault_absent k v (d : TxParams) :
  d !! k = None -> setdefault k v d = <[k := v]> d.
Proof. intros H. unfold setdefault. now rewrite H. Qed.

Lemma setdefault_present k v w (d : TxParams) :
  d !! k = Some w -> setdefault k v d = d.
Proof. intros H. unfold setdefault. now rewrite H. Qed.

Lemma prepare_from f a :
  prepare_transaction f {["from" := VStr a]}
  = call_transaction (contract_address (fn_contract f)) a (fn_data f).
Proof.
  unfold prepare_transaction, call_transaction.
  rewrite setdefault_absent; [reflexivity|]. now dict.
Qed.

(** *** The library operations *)

Lemma fn_call_run W f (t : TxParams) s :
  t !! "data" = None ->
  fn_call W f t s
  = (log (EvRpc (contract_client (fn_contract f))
                (Call (prepare_transaction f t))) s,
     eth_call (client W (contract_client (fn_contract f)))
              (prepare_transaction f t)).
Proof. intros H. unfold fn_call. now rewrite H. Qed.

(** Defaults for a transaction that fixes neither gas nor gas price. *)
Lemma fill_all_run W c (t : TxParams) s g p i :
  t !! "value" = None -> is_Some (t !! "data") ->
  t !! "gas" = None -> t !! "gasPrice" = None -> t !! "chainId" = None ->
  estimateGas (client W c) t = inr g ->
  gasPrice (client W c) = inr p ->
  chainId (client W c) = inr i ->
  fill_transaction_defaults W c t s
  = (logs [EvRpc c (EstimateGas t); EvRpc c GasPrice; EvRpc c ChainId] s,
     inr (<["chainId" := VInt i]>
            (<["gasPrice" := VInt p]>
               (<["gas" := VInt g]> (<["value" := VInt 0]> t))))).
Proof.
  intros Hv [x Hd] Hg Hp Hi Eg Ep Ei.
  unfold fill_transaction_defaults. rewrite Hg, Hp, Hi.
  rewrite (setdefault_absent "value") by assumption.
  rewrite (setdefault_present "data" _ x) by now dict.
  cbv [mbind M_bind mret M_ret lift ask emit client_estimateGas
       client_gasPrice client_chainId].
  rewrite Eg, Ep, Ei. rewrite !log_is_logs, !logs_logs. reflexivity.
Qed.

(** Defaults for a transaction that fixes gas and gas price. *)
Lemma fill_chain_run W c (t : TxParams) s x y i :
  t !! "value" = None -> is_Some (t !! "data") ->
  t !! "gas" = Some x -> t !! "gasPrice" = Some y -> t !! "chainId" = None ->
  chainId (client W c) = inr i ->
  fill_transaction_defaults W c t s
  = (logs [EvRpc c ChainId] s,
     inr (<["chainId" := VInt i]> (<["value" := VInt 0]> t))).
Proof.
  intros Hv [z Hd] Hg Hp Hi Ei.
  unfold fill_transaction_defaults. rewrite Hg, Hp, Hi.
  rewrite (setdefault_absent "value") by assumption.
  rewrite (setdefault_present "data" _ z) by now dict.
  cbv [mbind M_bind mret M_ret lift ask emit client_chainId].
  now rewrite Ei.
Qed.

Lemma setdefault_keeps k v k' w (d : TxParams) :
  d !! k' = Some w -> setdefault k v d !! k' = Some w.
Proof.
  intros H. unfold setdefault. destruct (d !! k) eqn:E; [assumption|].
  rewrite lookup_insert_ne; [assumption|]. congruence.
Qed.

Lemma insert_keeps k x k' w (t d : TxParams) :
  t !! k = None -> t !! k' = Some w -> d !! k' = Some w ->
  <[k := x]> d !! k' = Some w.
Proof.
  intros Hk Hk' Hd. rewrite lookup_insert_ne; [assumption|]. congruence.
Qed.

(** [fill_transaction_defaults] keeps what the transaction fixes, and
    fills a missing gas limit with the node's estimate. *)
Lemma fill_inv W c (t : TxParams) s s' d :
  fill_transaction_defaults W c t s = (s', inr d) ->
  (forall k v, t !! k = Some v -> d !! k = Some v)
  /\ (t !! "gas" = None ->
      exists g, estimateGas (client W c) t = inr g /\ d !! "gas" = Some (VInt g)).
Proof.
  unfold fill_transaction_defaults.
  cbv [mbind M_bind mret M_ret lift ask emit client_estimateGas
       client_gasPrice client_chainId].
  set (d0 := setdefault "data" (VBytes []) (setdefault "value" (VInt 0) t)).
  assert (K0 : forall k v, t !! k = Some v -> d0 !! k = Some v)
    by (intros k v H; unfold d0; now do 2 apply setdefault_keeps).
  destruct (t !! "gas") eqn:Hg; [|destruct (estimateGas (client W c) t) eqn:Eg];
    (destruct (t !! "gasPrice") eqn:Hp; [|destruct (gasPrice (client W c)) eqn:Ep]);
    (destruct (t !! "chainId") eqn:Hi; [|destruct (chainId (client W c)) eqn:Ei]);
    intros H; inversion H; subst; clear H;
    (split; [ intros k v Hk;
              repeat (eapply insert_keeps; [eassumption|eassumption|]);
              now apply K0
            | intros Hn;
              first [ discriminate
                    | eexists; split; [reflexivity | now dict] ] ]).
Qed.

Lemma fill_returns W c (t : TxParams) s :
  quotes (client W c) ->
  exists s' d, fill_transaction_defaults W c t s = (s', inr d).
Proof.
  intros (Hg & [p Hp] & [i Hi]). destruct (Hg t) as [g Eg].
  unfold fill_transaction_defaults.
  cbv [mbind M_bind mret M_ret lift ask emit client_estimateGas
       client_gasPrice client_chainId].
  rewrite Eg, Hp, Hi.
  destruct (t !! "gas"), (t !! "gasPrice"), (t !! "chainId"); eauto.
Qed.

Lemma builder_parameters_lookup a gas gas_price nonce :
  builder_parameters a gas gas_price nonce !! "data" = None
  /\ builder_parameters a gas gas_price nonce !! "to" = None
  /\ builder_parameters a gas gas_price nonce !! "from" = Some (VStr a)
  /\ builder_parameters a gas gas_price nonce !! "gas" = VInt <$> gas
  /\ builder_parameters a gas gas_price nonce !! "nonce" = VInt <$> nonce.
Proof.
  unfold builder_parameters, override.
  destruct gas, gas_price, nonce; simpl; repeat split; now dict.
Qed.

Lemma prepare_lookup f (t : TxParams) :
  t !! "to" = None ->
  prepare_transaction f t !! "data" = Some (VBytes (fn_data f))
  /\ prepare_transaction f t !! "to"
     = Some (VStr (contract_address (fn_contract f)))
  /\ forall k, k <> "data" -> k <> "to" ->
               prepare_transaction f t !! k = t !! k.
Proof.
  intros H. unfold prepare_transaction.
  rewrite setdefault_absent by assumption.
  repeat split; [now dict | now dict |].
  intros k H1 H2. now rewrite !lookup_insert_ne by congruence.
Qed.

(** *** The Builder *)

Lemma builder_unfold W pf master_copy a init salt gas gas_price nonce :
  _build_tx_deploy_proxy_contract_with_nonce W pf master_copy a init salt
    gas gas_price nonce
  = (f ← functions_createProxyWithNonce W
          (get_proxy_factory_contract (factory_ethereum_client pf)
                                      (factory_address pf))
          master_copy init salt;
     v ← fn_call W f {["from" := VStr a]};
     tx ← fn_buildTransaction W f (builder_parameters a gas gas_price nonce);
     g ← getitem_int tx "gas";
     n ← client_get_transaction_count W AutoClient a;
     mret (<["nonce" := VInt n]> (<["gas" := VInt (g + 50000)]> tx), v)).
Proof. reflexivity. Qed.

Lemma build_parameters_run W f a gas gas_price nonce s :
  fn_buildTransaction W f (builder_parameters a gas gas_price nonce) s
  = fill_transaction_defaults W (contract_client (fn_contract f))
      (prepare_transaction f (builder_parameters a gas gas_price nonce)) s.
Proof.
  destruct (builder_parameters_lookup a gas gas_price nonce) as (Hd & Ht & _).
  unfold fn_buildTransaction. now rewrite Hd, Ht.
Qed.

(** The gas limit [buildTransaction] leaves in the transaction: the
    override when there is one, the node's estimate otherwise. *)
Lemma build_gas_limit W f a gas gas_price nonce s s' tx :
  fill_transaction_defaults W (contract_client (fn_contract f))
    (prepare_transaction f (builder_parameters a gas gas_price nonce)) s
  = (s', inr tx) ->
  exists g, tx !! "gas" = Some (VInt g)
    /\ match gas with
       | Some g' => g = g'
       | None =>
           estimateGas (client W (contract_client (fn_contract f)))
             (prepare_transaction f
                (builder_parameters a gas gas_price nonce)) = inr g
       end.
Proof.
  intros Ef. apply fill_inv in Ef as [Keep Est].
  destruct (builder_parameters_lookup a gas gas_price nonce)
    as (_ & Ht & _ & Hg & _).
  destruct (prepare_lookup f _ Ht) as (_ & _ & Po).
  destruct gas as [g'|].
  - exists g'. split; [|reflexivity]. apply Keep. now rewrite Po, Hg.
  - destruct Est as (g & Eg & Lg); [now rewrite Po, Hg|]. now exists g.
Qed.

(** Whatever the Builder returns, it was obtained as follows. *)
Lemma builder_inv W pf master_copy a init salt gas gas_price nonce s s' tx v :
  _build_tx_deploy_proxy_contract_with_nonce W pf master_copy a init salt
    gas gas_price nonce s = (s', inr (tx, v)) ->
  exists d g n,
    encode_createProxyWithNonce W master_copy init salt = inr d
    /\ eth_call (client W (factory_ethereum_client pf))
                (call_transaction (factory_address pf) a d) = inr v
    /\ match gas with
       | Some g' => g = g'
       | None =>
           estimateGas (client W (factory_ethereum_client pf))
             (prepare_transaction (create_proxy_fn pf d)
                (builder_parameters a gas gas_price nonce)) = inr g
       end
    /\ get_transaction_count (w3 W) a = inr n
    /\ tx !! "gas" = Some (VInt (g + 50000))
    /\ tx !! "nonce" = Some (VInt n)
    /\ tx !! "data" = Some (VBytes d)
    /\ tx !! "to" = Some (VStr (factory_address pf))
    /\ tx !! "from" = Some (VStr a)
    /\ last (trace s') = Some (EvRpc AutoClient (GetTransactionCount a)).
Proof.
  rewrite builder_unfold.
  cbv [mbind M_bind mret M_ret lift functions_createProxyWithNonce].
  destruct (encode_createProxyWithNonce W master_copy init salt) as [e|d] eqn:Ed;
    [discriminate|].
  fold (create_proxy_fn pf d).
  rewrite fn_call_run by now dict. rewrite prepare_from. simpl.
  destruct (eth_call _ _) as [e|v'] eqn:Ev; [discriminate|].
  rewrite build_parameters_run.
  destruct (fill_transaction_defaults _ _ _ _) as [s2 [e|tx2]] eqn:Ef;
    [discriminate|].
  destruct (build_gas_limit _ _ _ _ _ _ _ _ _ Ef) as (g & Lg & Hgas).
  apply fill_inv in Ef as [Keep _].
  destruct (builder_parameters_lookup a gas gas_price nonce)
    as (_ & Ht & Hf & _).
  destruct (prepare_lookup (create_proxy_fn pf d) _ Ht) as (Pd & Pt & Po).
  unfold getitem_int. rewrite Lg.
  cbv [mret M_ret client_get_transaction_count ask mbind M_bind emit lift].
  simpl. destruct (get_transaction_count (w3 W) a) as [e|n] eqn:En;
    [discriminate|].
  intros H. inversion H; subst; clear H.
  exists d, g, n. repeat split; try assumption; try now dict.
  - dict. apply Keep. exact Pd.
  - dict. apply Keep. exact Pt.
  - dict. apply Keep. now rewrite Po, Hf.
  - simpl. apply last_snoc.
Qed.

(** The Builder returns as soon as the encoder, the simulation, the node's
    quotes and the transaction count are available. *)
Lemma builder_returns W pf master_copy a init salt gas gas_price nonce s d v n :
  encode_createProxyWithNonce W master_copy init salt = inr d ->
  eth_call (client W (factory_ethereum_client pf))
           (call_transaction (factory_address pf) a d) = inr v ->
  quotes (client W (factory_ethereum_client pf)) ->
  get_transaction_count (w3 W) a = inr n ->
  exists s' tx,
    _build_tx_deploy_proxy_contract_with_nonce W pf master_copy a init salt
      gas gas_price nonce s = (s', inr (tx, v)).
Proof.
  intros Ed Ev Hq En. rewrite builder_unfold.
  cbv [mbind M_bind mret M_ret lift functions_createProxyWithNonce].
  rewrite Ed. fold (create_proxy_fn pf d).
  rewrite fn_call_run by now dict. rewrite prepare_from. simpl. rewrite Ev.
  rewrite build_parameters_run.
  match goal with
  | |- context [fill_transaction_defaults W ?c ?t ?s0] =>
      destruct (fill_returns W c t s0 Hq) as (s2 & tx2 & Ef)
  end.
  rewrite Ef.
  destruct (build_gas_limit _ _ _ _ _ _ _ _ _ Ef) as (g & Lg & _).
  unfold getitem_int. rewrite Lg.
  cbv [mret M_ret client_get_transaction_count ask mbind M_bind emit lift].
  simpl. rewrite En. eauto.
Qed.

(** The run of the Builder without overrides, as the Planner calls it. *)
Lemma builder_plain_run W pf master_copy a init salt s d v g p i n :
  let c := factory_ethereum_client pf in
  let tx := call_transaction (factory_address pf) a d in
  encode_createProxyWithNonce W master_copy init salt = inr d ->
  eth_call (client W c) tx = inr v ->
  estimateGas (client W c) tx = inr g ->
  gasPrice (client W c) = inr p ->
  chainId (client W c) = inr i ->
  get_transaction_count (w3 W) a = inr n ->
  _build_tx_deploy_proxy_contract_with_nonce W pf master_copy a init salt
    None None None s
  = (logs [EvRpc c (Call tx); EvRpc c (EstimateGas tx); EvRpc c GasPrice;
           EvRpc c ChainId; EvRpc AutoClient (GetTransactionCount a)] s,
     inr (planned_transaction (factory_address pf) a d g p i n, v)).
Proof.
  intros c tx Ed Ev Eg Ep Ei En. rewrite builder_unfold.
  cbv [mbind M_bind mret M_ret lift functions_createProxyWithNonce].
  rewrite Ed. fold (create_proxy_fn pf d).
  rewrite fn_call_run by now dict. rewrite prepare_from. projections.
  fold tx c. rewrite Ev.
  rewrite build_parameters_run.
  change (builder_parameters a None None None)
    with ({["from" := VStr a]} : TxParams).
  rewrite prepare_from. projections. fold tx c.
  rewrite (fill_all_run W c tx _ g p i);
    try assumption; try (unfold tx, call_transaction; now dict).
  unfold getitem_int. dict.
  cbv [mret M_ret client_get_transaction_count ask mbind M_bind emit lift].
  simpl. rewrite En.
  rewrite !log_is_logs, !logs_logs. reflexivity.
Qed.

(** *** The Planner *)

Lemma planner_no_code_run W url sender owners threshold salt_nonce s
    a b eth net c1 c2 :
  let node := EthereumClient W url in
  threshold <= Z.of_nat (length owners) ->
  checksum_address W sender = inr a ->
  get_balance node a = inr b ->
  b <> 0 ->
  fromWei_round6 W b = inr eth ->
  get_network node = inr net ->
  getCode node SAFE_CONTRACT = inr c1 ->
  getCode node PROXY_FACTORY_CONTRACT = inr c2 ->
  c1 = [] \/ c2 = [] ->
  get_deploy_safe_tx W url sender owners threshold salt_nonce s
  = (logs (funds_events url a net eth ++ code_events url c1)
          (after_salt salt_nonce s),
     inl UnsupportedNetwork).
Proof.
  intros node Hle Ha Hb Hnz He Hn Hc1 Hc2 Hempty.
  apply Z.ltb_ge in Hle. apply Z.eqb_neq in Hnz.
  destruct salt_nonce as [n|]; [|rewrite planner_draws_salt];
    unfold_planner; rewrite Hle, Ha; simpl; fold node;
    rewrite Hb, Hnz, He, Hn, Hc1;
    (destruct c1 as [|x c1];
     [ | rewrite Hc2; destruct Hempty as [|Hf]; [discriminate|]; rewrite Hf ]);
    unfold funds_events, code_events; simpl;
    rewrite !log_is_logs, !logs_logs; reflexivity.
Qed.

(** The initializer is read back from the transaction built for the
    [setup] call with gas and gas price fixed to 1: only the chain id is
    asked of the node. *)
Lemma setup_data_run W k (init : Bytes) s i :
  chainId (client W (contract_client k)) = inr i ->
  (tx ← fn_buildTransaction W {| fn_contract := k; fn_data := init |}
          (<["gasPrice" := VInt 1]> {["gas" := VInt 1]});
   getitem_bytes tx "data") s
  = (logs [EvRpc (contract_client k) ChainId] s, inr init).
Proof.
  intros Ei. unfold fn_buildTransaction. dict.
  unfold prepare_transaction.
  rewrite setdefault_absent by now dict. projections.
  cbv [mbind M_bind].
  erewrite fill_chain_run; [ | first [eassumption | now dict] .. ].
  unfold getitem_bytes. now dict.
Qed.

(** The run of the Planner on a request that passes every check. *)
Lemma planner_run W url sender owners threshold salt_nonce s r :
  let salt := salt_of W salt_nonce s in
  answered W url sender owners threshold salt r ->
  checks_pass threshold owners r ->
  get_deploy_safe_tx W url sender owners threshold salt_nonce s
  = (logs (funds_events url (account r) (network r) (ether r)
             ++ code_events url (safe_code r)
             ++ build_events url owners threshold salt r)
          (after_salt salt_nonce s),
     inr (planned_transaction PROXY_FACTORY_CONTRACT (account r) (payload r)
            (estimate r) (price r) (chain r) (count r),
          proxy r)).
Proof.
  intros salt (Ha & Hb & He & Hn & Hc1 & Hc2 & Hs & Hi & Hd & Hv & Hg & Hp & Hk)
         (Hle & Hnz & Hn1 & Hn2).
  apply Z.ltb_ge in Hle. apply Z.eqb_neq in Hnz.
  assert (E : get_deploy_safe_tx W url sender owners threshold salt_nonce s
              = get_deploy_safe_tx W url sender owners threshold (Some salt)
                  (after_salt salt_nonce s))
    by (destruct salt_nonce; [reflexivity | apply planner_draws_salt]).
  rewrite E. clear E. generalize (after_salt salt_nonce s). intros s0.
  unfold get_deploy_safe_tx.
  cbv [mbind M_bind mret M_ret raise lift ask emit functions_setup
       EthereumClient_init cached_get_network
       client_get_balance client_get_network client_getCode].
  rewrite Hle. cbn [client]. rewrite Hn. cbv beta iota delta [construction].
  rewrite Ha, Hb, Hnz, He, Hc1.
  destruct (safe_code r) as [|x1 c1] eqn:E1; [congruence|].
  rewrite Hc2. destruct (factory_code r) as [|x2 c2] eqn:E2; [congruence|].
  rewrite Hs.
  match goal with
  | |- context [fn_buildTransaction W ?f ?t ?s1] =>
      pose proof (setup_data_run W
                    (get_safe_V1_3_0_contract (NodeClient url) SAFE_CONTRACT)
                    (initializer r) s1 (chain r) Hi) as Hsetup;
      cbv [mbind M_bind] in Hsetup; revert Hsetup;
      destruct (fn_buildTransaction W f t s1) as [s2 [e|tx2]];
      intros Hsetup
  end; [inversion Hsetup|].
  rewrite Hsetup. projections.
  erewrite builder_plain_run; try eassumption.
  unfold funds_events, code_events, build_events.
  projections. simpl.
  rewrite !log_is_logs, !logs_logs. simpl. reflexivity.
Qed.

(** ** The precondition checks of the Planner *)

Lemma distinct_owners_le owners :
  (distinct_owners owners <= length owners)%nat.
Proof.
  unfold distinct_owners. induction owners as [|o owners IH]; simpl; [lia|].
  destruct (decide_rel elem_of o owners); simpl; lia.
Qed.

(** A threshold above the number of owners given is in particular above
    the number of distinct owners: such a request violates the invariant. *)
Lemma above_owner_count_violates_invariant owners threshold :
  Z.of_nat (length owners) < threshold -> ~ request_invariant owners threshold.
Proof.
  intros Hlt [_ Hle]. pose proof (distinct_owners_le owners). lia.
Qed.

(** When no owner is repeated, the two counts agree. *)
Lemma distinct_owners_NoDup owners :
  NoDup owners -> distinct_owners owners = length owners.
Proof.
  unfold distinct_owners. induction 1 as [|o owners Hnotin Hnd IH]; simpl;
    [reflexivity|].
  destruct (decide_rel elem_of o owners); [contradiction|]. simpl. now rewrite IH.
Qed.

(** The check of line 81 compares the threshold with the length of the
    owner list as given: repeated owners count each time, although the
    error message speaks of unique owners.  With one distinct owner and
    threshold 2 the request passes the check and the node is queried. *)
Example repeated_owners_pass_validation :
  let m := get_deploy_safe_tx Sample.world "http://bare:8545" Sample.sender
             [Sample.alice; Sample.alice] 2 (Some 42) in
  distinct_owners [Sample.alice; Sample.alice] = 1%nat
  /\ result m = inl InsufficientFunds
  /\ rpcs m = [EvRpc (NodeClient "http://bare:8545") GetNetwork;
               EvRpc (NodeClient "http://bare:8545") (GetBalance Sample.sender)].
Proof. repeat split; vm_compute; reflexivity. Qed.

(** C3, as stated, fails: a request with threshold 0 violates the invariant
    [1 <= threshold <= distinct owners], yet the Planner does not reject it
    with [InvalidThreshold]: it goes on to query the sender's balance, and
    the outcome is decided by what the node answers. *)
Lemma zero_threshold_not_rejected :
  ~ (~ request_invariant [Sample.alice] 0 ->
     rejected_before_chain_io
       (get_deploy_safe_tx Sample.world "http://bare:8545" Sample.sender
          [Sample.alice] 0 (Some 42))).
Proof.
  intros H. destruct H as [_ Hrpcs].
  - unfold request_invariant. lia.
  - vm_compute in Hrpcs. discriminate.
Qed.

(** The same request on the sample node without funds: the balance was
    queried and the funds error is the one raised. *)
Example zero_threshold_reaches_node :
  let m := get_deploy_safe_tx Sample.world "http://bare:8545" Sample.sender
             [Sample.alice] 0 (Some 42) in
  result m = inl InsufficientFunds
  /\ rpcs m = [EvRpc (NodeClient "http://bare:8545") GetNetwork;
               EvRpc (NodeClient "http://bare:8545") (GetBalance Sample.sender)].
Proof. split; vm_compute; reflexivity. Qed.

(** C3, amended: every request whose threshold exceeds the number of owner
    addresses given is rejected with [InvalidThreshold], and no query to a
    chain client has been made by then. *)
Theorem threshold_above_owners_rejected W url sender owners threshold salt_nonce :
  Z.of_nat (length owners) < threshold ->
  rejected_before_chain_io
    (get_deploy_safe_tx W url sender owners threshold salt_nonce).
Proof.
  intros Hlt. unfold rejected_before_chain_io, result, rpcs, run.
  rewrite planner_threshold_run by assumption. simpl.
  split; [reflexivity|]. now rewrite chain_calls_after_salt.
Qed.

Lemma threshold_above_owners_rejected_witness :
  Z.of_nat (length [Sample.alice; Sample.bob]) < 3
  /\ rejected_before_chain_io
       (get_deploy_safe_tx Sample.world "http://node:8545" Sample.sender
          [Sample.alice; Sample.bob] 3 None).
Proof.
  split; [simpl; lia|].
  apply (threshold_above_owners_rejected Sample.world "http://node:8545"
           Sample.sender [Sample.alice; Sample.bob] 3 None).
  simpl; lia.
Defined.

(** C4: a request that passes the threshold check and whose sender has a
    zero balance on the node fails with [InsufficientFunds].  By then the
    node has been asked for its network (by the client's constructor, which
    has to return for the balance to be asked at all) and for the balance,
    and for nothing else: nothing was simulated, estimated or built, and
    nothing is returned. *)
Theorem zero_balance_rejected W url sender owners threshold salt_nonce net a :
  threshold <= Z.of_nat (length owners) ->
  get_network (EthereumClient W url) = inr net ->
  checksum_address W sender = inr a ->
  get_balance (EthereumClient W url) a = inr 0 ->
  let m := get_deploy_safe_tx W url sender owners threshold salt_nonce in
  result m = inl InsufficientFunds
  /\ rpcs m = [EvRpc (NodeClient url) GetNetwork;
               EvRpc (NodeClient url) (GetBalance a)].
Proof.
  intros Hle Hn Ha Hb m. unfold m, result, rpcs, run.
  rewrite (planner_no_funds_run _ _ _ _ _ _ _ (Some net) a);
    [|assumption|now rewrite Hn|assumption|assumption].
  simpl. split; [reflexivity|].
  now rewrite chain_calls_logs, chain_calls_after_salt.
Qed.

Lemma zero_balance_rejected_witness :
  let m := get_deploy_safe_tx Sample.world "http://bare:8545" Sample.sender
             [Sample.alice; Sample.bob; Sample.carol] 2 (Some 42) in
  result m = inl InsufficientFunds
  /\ rpcs m = [EvRpc (NodeClient "http://bare:8545") GetNetwork;
               EvRpc (NodeClient "http://bare:8545") (GetBalance Sample.sender)].
Proof.
  apply (zero_balance_rejected Sample.world "http://bare:8545" Sample.sender
           [Sample.alice; Sample.bob; Sample.carol] 2 (Some 42)
           "UNKNOWN" Sample.sender).
  - simpl; lia.
  - reflexivity.
  - reflexivity.
  - reflexivity.
Defined.

(** C5: a request that passes the threshold and funds checks, on a node
    that reports empty bytecode at the master copy or at the proxy factory,
    fails with [UnsupportedNetwork]. *)
Theorem missing_code_rejected W url sender owners threshold salt_nonce
    a b eth net c1 c2 :
  let node := EthereumClient W url in
  threshold <= Z.of_nat (length owners) ->
  checksum_address W sender = inr a ->
  get_balance node a = inr b ->
  b <> 0 ->
  fromWei_round6 W b = inr eth ->
  get_network node = inr net ->
  getCode node SAFE_CONTRACT = inr c1 ->
  getCode node PROXY_FACTORY_CONTRACT = inr c2 ->
  c1 = [] \/ c2 = [] ->
  result (get_deploy_safe_tx W url sender owners threshold salt_nonce)
  = inl UnsupportedNetwork.
Proof.
  intros node Hle Ha Hb Hnz He Hn Hc1 Hc2 Hempty. unfold result, run.
  now rewrite (planner_no_code_run _ _ _ _ _ _ _ a b eth net c1 c2).
Qed.

Lemma missing_code_rejected_witness :
  result (get_deploy_safe_tx Sample.world "http://nofactory:8545" Sample.sender
            [Sample.alice; Sample.bob; Sample.carol] 2 (Some 42))
  = inl UnsupportedNetwork.
Proof.
  apply (missing_code_rejected Sample.world "http://nofactory:8545"
           Sample.sender [Sample.alice; Sample.bob; Sample.carol] 2 (Some 42)
           Sample.sender 5 "1.0" "UNKNOWN" Sample.code []).
  - simpl; lia.
  - reflexivity.
  - reflexivity.
  - lia.
  - reflexivity.
  - reflexivity.
  - reflexivity.
  - reflexivity.
  - right; reflexivity.
Defined.

(** C9: the checks come in the order threshold, balance, code, and the
    first one that fails decides the error.  A threshold above the owner
    count gives [InvalidThreshold] whatever the node would answer, and the
    node is not asked anything.  With the threshold in order and the client
    constructed, a zero balance gives [InsufficientFunds] whatever code the
    node holds, and the code is not even queried.  With both in order,
    missing code gives [UnsupportedNetwork], the balance having been
    queried before the code. *)
Theorem first_failed_check_decides W url sender owners threshold salt_nonce
    a b eth net c1 c2 :
  let node := EthereumClient W url in
  let m := get_deploy_safe_tx W url sender owners threshold salt_nonce in
  (Z.of_nat (length owners) < threshold ->
   result m = inl InvalidThreshold /\ rpcs m = [])
  /\ (threshold <= Z.of_nat (length owners) ->
      get_network node = inr net ->
      checksum_address W sender = inr a ->
      get_balance node a = inr 0 ->
      result m = inl InsufficientFunds
      /\ rpcs m = [EvRpc (NodeClient url) GetNetwork;
                   EvRpc (NodeClient url) (GetBalance a)])
  /\ (threshold <= Z.of_nat (length owners) ->
      get_network node = inr net ->
      checksum_address W sender = inr a ->
      get_balance node a = inr b -> b <> 0 ->
      fromWei_round6 W b = inr eth ->
      getCode node SAFE_CONTRACT = inr c1 ->
      getCode node PROXY_FACTORY_CONTRACT = inr c2 ->
      c1 = [] \/ c2 = [] ->
      result m = inl UnsupportedNetwork
      /\ rpcs m = EvRpc (NodeClient url) GetNetwork
                  :: EvRpc (NodeClient url) (GetBalance a)
                  :: code_events url c1).
Proof.
  intros node m. unfold m, result, rpcs, run. repeat split.
  - now rewrite planner_threshold_run.
  - rewrite planner_threshold_run by assumption. simpl.
    now rewrite chain_calls_after_salt.
  - rewrite (planner_no_funds_run _ _ _ _ _ _ _ (Some net) a);
      [reflexivity|assumption| |assumption|assumption].
    match goal with
    | H : get_network node = inr net |- _ => fold node; now rewrite H
    end.
  - rewrite (planner_no_funds_run _ _ _ _ _ _ _ (Some net) a);
      [|assumption| |assumption|assumption].
    + simpl. now rewrite chain_calls_logs, chain_calls_after_salt.
    + match goal with
      | H : get_network node = inr net |- _ => fold node; now rewrite H
      end.
  - now rewrite (planner_no_code_run _ _ _ _ _ _ _ a b eth net c1 c2).
  - rewrite (planner_no_code_run _ _ _ _ _ _ _ a b eth net c1 c2)
      by assumption.
    simpl. rewrite chain_calls_logs, chain_calls_after_salt.
    destruct c1; reflexivity.
Qed.

(** On a node where the sender has no funds and the Safe contracts are
    missing, the funds error is the one reported. *)
Lemma first_failed_check_decides_witness :
  let m := get_deploy_safe_tx Sample.world "http://bare:8545" Sample.sender
             [Sample.alice; Sample.bob; Sample.carol] 2 None in
  getCode Sample.bare SAFE_CONTRACT = inr []
  /\ getCode Sample.bare PROXY_FACTORY_CONTRACT = inr []
  /\ result m = inl InsufficientFunds
  /\ rpcs m = [EvRpc (NodeClient "http://bare:8545") GetNetwork;
               EvRpc (NodeClient "http://bare:8545") (GetBalance Sample.sender)].
Proof.
  split; [reflexivity|]. split; [reflexivity|].
  apply (first_failed_check_decides Sample.world "http://bare:8545"
           Sample.sender [Sample.alice; Sample.bob; Sample.carol] 2 None
           Sample.sender 0 "" "UNKNOWN" [] []).
  - simpl; lia.
  - reflexivity.
  - reflexivity.
  - reflexivity.
Defined.

(** ** The Builder: nonce, gas limit and predicted address *)

(** The nonce of the returned transaction is the transaction count that
    [web3.auto.w3] reports for the sender, whether or not an override is
    given: line 185 overwrites what lines 179-180 put in. *)
Lemma builder_nonce_is_count W pf master_copy a init salt gas gas_price nonce
    s s' tx v :
  _build_tx_deploy_proxy_contract_with_nonce W pf master_copy a init salt
    gas gas_price nonce s = (s', inr (tx, v)) ->
  exists n, get_transaction_count (w3 W) a = inr n
            /\ tx !! "nonce" = Some (VInt n).
Proof.
  intros H. apply builder_inv in H as (d & g & n & H). exists n. tauto.
Qed.

(** The gas limit of the returned transaction is 50000 above the node's
    estimate when no override is given, and 50000 above the override when
    one is: line 184 adds the margin in both cases. *)
Lemma builder_gas_is_margin_above W pf master_copy a init salt gas gas_price
    nonce s s' tx v :
  _build_tx_deploy_proxy_contract_with_nonce W pf master_copy a init salt
    gas gas_price nonce s = (s', inr (tx, v)) ->
  exists g,
    tx !! "gas" = Some (VInt (g + 50000))
    /\ match gas with
       | Some g' => g = g'
       | None =>
           exists d,
             encode_createProxyWithNonce W master_copy init salt = inr d
             /\ estimateGas (client W (factory_ethereum_client pf))
                  (prepare_transaction (create_proxy_fn pf d)
                     (builder_parameters a None gas_price nonce)) = inr g
       end.
Proof.
  intros H. apply builder_inv in H as (d & g & n & Hd & _ & Hg & _ & Lg & _).
  exists g. split; [assumption|]. destruct gas; [assumption|]. now exists d.
Qed.

(** C1, on an input where the code departs from it: called with the nonce
    override 9 while [web3.auto.w3] reports 3 transactions for the sender,
    the Builder returns a transaction whose nonce is 3, not 9. *)
Theorem nonce_override_overwritten :
  let r := result (_build_tx_deploy_proxy_contract_with_nonce Sample.world
                     Sample.factory SAFE_CONTRACT Sample.sender [Byte.x01] 42
                     None None (Some 9)) in
  get_transaction_count (w3 Sample.world) Sample.sender = inr 3
  /\ returned_address r = Some Sample.predicted
  /\ field "nonce" r = Some (VInt 3)
  /\ field "nonce" r <> Some (VInt 9).
Proof. repeat split; try (vm_compute; reflexivity). vm_compute. discriminate. Qed.

(** C2, on an input where the code departs from it: called with the gas
    override 100000, the Builder returns a transaction whose gas limit is
    150000, the override plus the margin, not the override. *)
Theorem gas_override_gets_margin :
  let r := result (_build_tx_deploy_proxy_contract_with_nonce Sample.world
                     Sample.factory SAFE_CONTRACT Sample.sender [Byte.x01] 42
                     (Some 100000) None None) in
  returned_address r = Some Sample.predicted
  /\ field "gas" r = Some (VInt (100000 + 50000))
  /\ field "gas" r <> Some (VInt 100000).
Proof. repeat split; try (vm_compute; reflexivity). vm_compute. discriminate. Qed.

(** Without a gas override the same call gets the node's estimate, 250000,
    plus the margin. *)
Example gas_estimate_gets_margin :
  field "gas"
    (result (_build_tx_deploy_proxy_contract_with_nonce Sample.world
               Sample.factory SAFE_CONTRACT Sample.sender [Byte.x01] 42
               None None None))
  = Some (VInt (250000 + 50000)).
Proof. vm_compute. reflexivity. Qed.

(** C6: two calls of the Builder with the same factory, master copy,
    initializer and salt return the same predicted address, whatever the
    overrides and whatever was logged before; that address is the answer of
    the node to the simulated [createProxyWithNonce] call, and nothing else
    is ever returned as the address. *)
Theorem predicted_address_deterministic W pf master_copy init salt d v
    a1 gas1 gas_price1 nonce1 n1 s1 a2 gas2 gas_price2 nonce2 n2 s2 :
  let node := client W (factory_ethereum_client pf) in
  encode_createProxyWithNonce W master_copy init salt = inr d ->
  eth_call node (call_transaction (factory_address pf) a1 d) = inr v ->
  eth_call node (call_transaction (factory_address pf) a2 d) = inr v ->
  quotes node ->
  get_transaction_count (w3 W) a1 = inr n1 ->
  get_transaction_count (w3 W) a2 = inr n2 ->
  (exists s1' tx1 s2' tx2,
     _build_tx_deploy_proxy_contract_with_nonce W pf master_copy a1 init salt
       gas1 gas_price1 nonce1 s1 = (s1', inr (tx1, v))
     /\ _build_tx_deploy_proxy_contract_with_nonce W pf master_copy a2 init
          salt gas2 gas_price2 nonce2 s2 = (s2', inr (tx2, v)))
  /\ (forall gas gas_price nonce s s' tx v',
        _build_tx_deploy_proxy_contract_with_nonce W pf master_copy a1 init
          salt gas gas_price nonce s = (s', inr (tx, v')) ->
        v' = v).
Proof.
  intros node Ed Ev1 Ev2 Hq En1 En2. split.
  - destruct (builder_returns W pf master_copy a1 init salt gas1 gas_price1
                nonce1 s1 d v n1 Ed Ev1 Hq En1) as (s1' & tx1 & H1).
    destruct (builder_returns W pf master_copy a2 init salt gas2 gas_price2
                nonce2 s2 d v n2 Ed Ev2 Hq En2) as (s2' & tx2 & H2).
    exists s1', tx1, s2', tx2. now split.
  - intros gas gas_price nonce s s' tx v' H.
    apply builder_inv in H as (d' & g & n & Hd & Hv & _).
    rewrite Ed in Hd. inversion Hd; subst d'. fold node in Hv.
    rewrite Ev1 in Hv. now inversion Hv.
Qed.

Lemma predicted_address_deterministic_witness :
  (exists s1' tx1 s2' tx2,
     _build_tx_deploy_proxy_contract_with_nonce Sample.world Sample.factory
       SAFE_CONTRACT Sample.sender [Byte.x01] 42 None None None st0
     = (s1', inr (tx1, Sample.predicted))
     /\ _build_tx_deploy_proxy_contract_with_nonce Sample.world Sample.factory
          SAFE_CONTRACT Sample.sender [Byte.x01] 42 (Some 100000) (Some 30)
          (Some 9) st0
        = (s2', inr (tx2, Sample.predicted)))
  /\ (forall gas gas_price nonce s s' tx v',
        _build_tx_deploy_proxy_contract_with_nonce Sample.world Sample.factory
          SAFE_CONTRACT Sample.sender [Byte.x01] 42 gas gas_price nonce s
        = (s', inr (tx, v')) ->
        v' = Sample.predicted).
Proof.
  apply (predicted_address_deterministic Sample.world Sample.factory
           SAFE_CONTRACT [Byte.x01] 42
           [Byte.x16; Byte.x88; Byte.xf0; Byte.xb9; Byte.x2a; Byte.x01]
           Sample.predicted
           Sample.sender None None None 3 st0
           Sample.sender (Some 100000) (Some 30) (Some 9) 3 st0).
  - reflexivity.
  - reflexivity.
  - reflexivity.
  - repeat split; intros; eexists; reflexivity.
  - reflexivity.
  - reflexivity.
Defined.

(** ** Runs of the Planner that reach the end *)

Lemma planned_transaction_lookup f a d g p i n :
  planned_transaction f a d g p i n !! "nonce" = Some (VInt n)
  /\ planned_transaction f a d g p i n !! "gas" = Some (VInt (g + 50000))
  /\ planned_transaction f a d g p i n !! "data" = Some (VBytes d)
  /\ planned_transaction f a d g p i n !! "to" = Some (VStr f)
  /\ planned_transaction f a d g p i n !! "from" = Some (VStr a).
Proof. unfold planned_transaction, call_transaction. repeat split; now dict. Qed.

(** Three owners, threshold 2, a funded sender, the contracts in place and
    salt 42: the Planner returns a transaction from the sender to the proxy
    factory, with the count of [web3.auto.w3] as nonce, the estimate plus
    50000 as gas limit, and the simulated return value as address. *)
Example sample_deployment :
  let r := result (get_deploy_safe_tx Sample.world "http://node:8545"
                     Sample.sender [Sample.alice; Sample.bob; Sample.carol] 2
                     (Some 42)) in
  field "to" r = Some (VStr PROXY_FACTORY_CONTRACT)
  /\ field "from" r = Some (VStr Sample.sender)
  /\ field "nonce" r = Some (VInt 3)
  /\ field "gas" r = Some (VInt (250000 + 50000))
  /\ field "data" r = Some (VBytes (payload Sample.answers))
  /\ returned_address r = Some Sample.predicted.
Proof. repeat split; vm_compute; reflexivity. Qed.

(** C7: invoked twice with the same owners, threshold and salt, the Planner
    returns the same [data] payload both times, whichever node and sender
    the two invocations use and whatever was logged before: the payload is
    the encoding of [createProxyWithNonce(SAFE_CONTRACT, initializer, salt)]
    where the initializer encodes [setup] of the owners, the threshold, the
    default fallback handler, no delegate call and zero payment fields. *)
Theorem data_payload_idempotent W owners threshold salt
    url1 sender1 r1 s1 url2 sender2 r2 s2 :
  answered W url1 sender1 owners threshold salt r1 ->
  checks_pass threshold owners r1 ->
  answered W url2 sender2 owners threshold salt r2 ->
  checks_pass threshold owners r2 ->
  exists init d,
    encode_setup W owners threshold NULL_ADDRESS [] DEFAULT_CALLBACK_HANDLER
      NULL_ADDRESS 0 NULL_ADDRESS = inr init
    /\ encode_createProxyWithNonce W SAFE_CONTRACT init salt = inr d
    /\ field "data" (snd (get_deploy_safe_tx W url1 sender1 owners threshold
                            (Some salt) s1)) = Some (VBytes d)
    /\ field "data" (snd (get_deploy_safe_tx W url2 sender2 owners threshold
                            (Some salt) s2)) = Some (VBytes d).
Proof.
  intros A1 C1 A2 C2.
  rewrite (planner_run W url1 sender1 owners threshold (Some salt) s1 r1 A1 C1).
  rewrite (planner_run W url2 sender2 owners threshold (Some salt) s2 r2 A2 C2).
  destruct A1 as (_ & _ & _ & _ & _ & _ & Hs1 & _ & Hd1 & _).
  destruct A2 as (_ & _ & _ & _ & _ & _ & Hs2 & _ & Hd2 & _).
  rewrite Hs1 in Hs2. inversion Hs2 as [Hi]. rewrite <- Hi in Hd2.
  simpl in Hd1, Hd2. rewrite Hd1 in Hd2. inversion Hd2 as [Hp].
  exists (initializer r1), (payload r1). simpl.
  destruct (planned_transaction_lookup PROXY_FACTORY_CONTRACT (account r1)
              (payload r1) (estimate r1) (price r1) (chain r1) (count r1))
    as (_ & _ & L1 & _).
  destruct (planned_transaction_lookup PROXY_FACTORY_CONTRACT (account r2)
              (payload r1) (estimate r2) (price r2) (chain r2) (count r2))
    as (_ & _ & L2 & _).
  auto.
Qed.

Lemma data_payload_idempotent_witness :
  exists init d,
    encode_setup Sample.world [Sample.alice; Sample.bob; Sample.carol] 2
      NULL_ADDRESS [] DEFAULT_CALLBACK_HANDLER NULL_ADDRESS 0 NULL_ADDRESS
    = inr init
    /\ encode_createProxyWithNonce Sample.world SAFE_CONTRACT init 42 = inr d
    /\ field "data"
         (snd (get_deploy_safe_tx Sample.world "http://node:8545" Sample.sender
                 [Sample.alice; Sample.bob; Sample.carol] 2 (Some 42) st0))
       = Some (VBytes d)
    /\ field "data"
         (snd (get_deploy_safe_tx Sample.world "http://other:8545" Sample.sender
                 [Sample.alice; Sample.bob; Sample.carol] 2 (Some 42) st0))
       = Some (VBytes d).
Proof.
  apply (data_payload_idempotent Sample.world
           [Sample.alice; Sample.bob; Sample.carol] 2 42
           "http://node:8545" Sample.sender Sample.answers st0
           "http://other:8545" Sample.sender Sample.answers st0);
    sample_run.
Defined.

(** C10: the nonce of the transaction the Planner returns is the
    transaction count that [web3.auto.w3] reports for the sender.  The count
    is asked of that client, as the last query of the run, and never of the
    node built from [ethereum_node_url]; two runs that differ only in the
    URL therefore return the same nonce. *)
Theorem nonce_from_auto_client W sender owners threshold salt_nonce
    url1 r1 url2 r2 :
  let salt := salt_of W salt_nonce st0 in
  let m1 := get_deploy_safe_tx W url1 sender owners threshold salt_nonce in
  let m2 := get_deploy_safe_tx W url2 sender owners threshold salt_nonce in
  answered W url1 sender owners threshold salt r1 ->
  checks_pass threshold owners r1 ->
  answered W url2 sender owners threshold salt r2 ->
  checks_pass threshold owners r2 ->
  exists a n,
    checksum_address W sender = inr a
    /\ get_transaction_count (w3 W) a = inr n
    /\ field "nonce" (result m1) = Some (VInt n)
    /\ field "nonce" (result m2) = Some (VInt n)
    /\ last (events m1) = Some (EvRpc AutoClient (GetTransactionCount a))
    /\ last (events m2) = Some (EvRpc AutoClient (GetTransactionCount a))
    /\ List.existsb is_node_count_query (events m1) = false
    /\ List.existsb is_node_count_query (events m2) = false.
Proof.
  intros salt m1 m2 A1 C1 A2 C2. unfold m1, m2, result, events, run.
  rewrite (planner_run W url1 sender owners threshold salt_nonce st0 r1 A1 C1).
  rewrite (planner_run W url2 sender owners threshold salt_nonce st0 r2 A2 C2).
  destruct A1 as (Ha1 & _ & _ & _ & _ & _ & _ & _ & _ & _ & _ & _ & Hk1).
  destruct A2 as (Ha2 & _ & _ & _ & _ & _ & _ & _ & _ & _ & _ & _ & Hk2).
  destruct C1 as (_ & _ & Hc1 & _). destruct C2 as (_ & _ & Hc2 & _).
  assert (Ha : account r2 = account r1) by congruence.
  assert (Hk : count r2 = count r1) by congruence.
  exists (account r1), (count r1). cbn [fst snd field].
  unfold funds_events, build_events. rewrite Ha, Hk.
  destruct (planned_transaction_lookup PROXY_FACTORY_CONTRACT (account r1)
              (payload r1) (estimate r1) (price r1) (chain r1) (count r1))
    as (L1 & _).
  destruct (planned_transaction_lookup PROXY_FACTORY_CONTRACT (account r1)
              (payload r2) (estimate r2) (price r2) (chain r2) (count r1))
    as (L2 & _).
  repeat split; try assumption;
    destruct salt_nonce, (safe_code r1), (safe_code r2);
    try congruence; reflexivity.
Qed.

Lemma nonce_from_auto_client_witness :
  let m1 := get_deploy_safe_tx Sample.world "http://node:8545" Sample.sender
              [Sample.alice; Sample.bob; Sample.carol] 2 (Some 42) in
  let m2 := get_deploy_safe_tx Sample.world "http://other:8545" Sample.sender
              [Sample.alice; Sample.bob; Sample.carol] 2 (Some 42) in
  get_transaction_count (EthereumClient Sample.world "http://node:8545")
    Sample.sender = inr 7
  /\ get_transaction_count (EthereumClient Sample.world "http://other:8545")
       Sample.sender = inr 11
  /\ exists a n,
       checksum_address Sample.world Sample.sender = inr a
       /\ get_transaction_count (w3 Sample.world) a = inr n
       /\ field "nonce" (result m1) = Some (VInt n)
       /\ field "nonce" (result m2) = Some (VInt n)
       /\ last (events m1) = Some (EvRpc AutoClient (GetTransactionCount a))
       /\ last (events m2) = Some (EvRpc AutoClient (GetTransactionCount a))
       /\ List.existsb is_node_count_query (events m1) = false
       /\ List.existsb is_node_count_query (events m2) = false.
Proof.
  split; [reflexivity|]. split; [reflexivity|].
  apply (nonce_from_auto_client Sample.world Sample.sender
           [Sample.alice; Sample.bob; Sample.carol] 2 (Some 42)
           "http://node:8545" Sample.answers
           "http://other:8545" Sample.answers);
    sample_run.
Defined.

(** The nonce of the sample runs is 3, the count of [web3.auto.w3], on
    nodes that report 7 and 11. *)
Example sample_nonce :
  field "nonce"
    (result (get_deploy_safe_tx Sample.world "http://node:8545" Sample.sender
               [Sample.alice; Sample.bob; Sample.carol] 2 (Some 42)))
  = Some (VInt 3)
  /\ field "nonce"
       (result (get_deploy_safe_tx Sample.world "http://other:8545"
                  Sample.sender [Sample.alice; Sample.bob; Sample.carol] 2
                  (Some 42)))
     = Some (VInt 3).
Proof. split; vm_compute; reflexivity. Qed.

(** Without a salt, the sample run calls [randint] once, with the bounds 0
    and [2^256 - 1], and goes on with the value the call returns, 12345 in
    the sample environment. *)
Example sample_drawn_salt :
  let m := get_deploy_safe_tx Sample.world "http://node:8545" Sample.sender
             [Sample.alice; Sample.bob; Sample.carol] 2 None in
  salt_of Sample.world None st0 = 12345
  /\ List.filter is_draw (events m) = [EvSystemRandom 0 (2 ^ 256 - 1)]
  /\ In (EvLog (LogCreating [Sample.alice; Sample.bob; Sample.carol] 2
                  DEFAULT_CALLBACK_HANDLER 12345))
        (events m).
Proof.
  split; [vm_compute; reflexivity|]. split; [vm_compute; reflexivity|].
  vm_compute. do 6 right. left. reflexivity.
Qed.

(** ** What every run does and does not do *)

Section Appends.

Context {A B : Type} (p : Event -> bool).

Lemma appends_ret (a : A) : appends p (mret a).
Proof. intros s. split; [reflexivity|]. exists []. now rewrite app_nil_r. Qed.

Lemma appends_raise (e : exn) : appends p (raise e : M A).
Proof. intros s. split; [reflexivity|]. exists []. now rewrite app_nil_r. Qed.

Lemma appends_lift (r : exn + A) : appends p (lift r).
Proof. intros s. split; [reflexivity|]. exists []. now rewrite app_nil_r. Qed.

Lemma appends_ask c q (r : exn + A) :
  p (EvRpc c q) = true -> appends p (ask c q r).
Proof.
  intros H s. split; [reflexivity|]. exists [EvRpc c q]. simpl.
  now rewrite H.
Qed.

Lemma appends_bind (m : M A) (f : A -> M B) :
  appends p m -> (forall a, appends p (f a)) -> appends p (m ≫= f).
Proof.
  intros Hm Hf s. destruct (Hm s) as (Hd & es & Ht & Hp).
  unfold mbind, M_bind. destruct (m s) as [s1 [e|a]]; simpl in *.
  - split; [assumption|]. now exists es.
  - destruct (Hf a s1) as (Hd' & es' & Ht' & Hp').
    split; [congruence|]. exists (es ++ es'). rewrite Ht', Ht, <- app_assoc.
    split; [reflexivity|]. rewrite forallb_app, Hp, Hp'. reflexivity.
Qed.

End Appends.

Lemma appends_emit (p : Event -> bool) e : p e = true -> appends p (emit e).
Proof.
  intros H s. split; [reflexivity|]. exists [e]. simpl. now rewrite H.
Qed.

Lemma appends_weaken {A} (p q : Event -> bool) (m : M A) :
  (forall e, p e = true -> q e = true) -> appends p m -> appends q m.
Proof.
  intros Hpq Hm s. destruct (Hm s) as (Hd & es & Ht & Hp).
  split; [assumption|]. exists es. split; [assumption|].
  apply forallb_forall. intros e He.
  apply Hpq. now apply (proj1 (forallb_forall p es) Hp).
Qed.

Lemma client_eqb_refl c : client_eqb c c = true.
Proof. destruct c; simpl; [apply String.eqb_refl | reflexivity]. Qed.

Lemma allowed_not_draw c e : allowed_event c e = true -> is_draw e = false.
Proof. destruct e; simpl; [reflexivity | discriminate | reflexivity]. Qed.

Lemma allowed_not_node_count c e :
  allowed_event c e = true -> is_node_count_query e = false.
Proof.
  destruct e as [[u|] q| |]; try reflexivity.
  destruct q; try reflexivity. simpl. discriminate.
Qed.

Lemma filter_none {X} (p q : X -> bool) (l : list X) :
  (forall x, p x = true -> q x = false) -> forallb p l = true ->
  List.filter q l = [].
Proof.
  intros H. induction l as [|x l IH]; simpl; [reflexivity|].
  intros Hl. apply andb_prop in Hl as [Hx Hl]. rewrite (H x Hx). now apply IH.
Qed.

(** Steps of the proofs that a computation only appends allowed events. *)
Ltac appends_step side :=
  first
    [ apply appends_ret | apply appends_raise | apply appends_lift
    | apply appends_ask; side
    | apply appends_emit; side
    | apply appends_bind; [|intros ?]
    | match goal with
      | |- appends _ (if ?b then _ else _) => destruct b
      | |- appends _ (match ?x with _ => _ end) => destruct x
      end ].

Ltac allowed_side :=
  simpl; rewrite ?client_eqb_refl, ?String.eqb_refl; reflexivity.

Lemma fn_call_appends W (p : Event -> bool) f (t : TxParams) :
  p (EvRpc (contract_client (fn_contract f)) (Call (prepare_transaction f t)))
  = true ->
  appends p (fn_call W f t).
Proof.
  intros H. unfold fn_call, client_call.
  repeat appends_step ltac:(exact H).
Qed.

Lemma fill_appends W (p : Event -> bool) c (t : TxParams) :
  (t !! "gas" = None -> p (EvRpc c (EstimateGas t)) = true) ->
  p (EvRpc c GasPrice) = true -> p (EvRpc c ChainId) = true ->
  appends p (fill_transaction_defaults W c t).
Proof.
  intros Hg Hp Hi. unfold fill_transaction_defaults, client_estimateGas,
    client_gasPrice, client_chainId.
  destruct (t !! "gas"); [|specialize (Hg eq_refl)];
    repeat appends_step ltac:(assumption).
Qed.

Lemma build_parameters_appends W (p : Event -> bool) f a gas gas_price nonce :
  let c := contract_client (fn_contract f) in
  (gas = None -> forall t, p (EvRpc c (EstimateGas t)) = true) ->
  p (EvRpc c GasPrice) = true -> p (EvRpc c ChainId) = true ->
  appends p (fn_buildTransaction W f (builder_parameters a gas gas_price nonce)).
Proof.
  intros c Hg Hp Hi.
  destruct (builder_parameters_lookup a gas gas_price nonce)
    as (Hd & Ht & _ & Lg & _).
  unfold fn_buildTransaction. rewrite Hd, Ht.
  apply fill_appends; try assumption.
  destruct (prepare_lookup f _ Ht) as (_ & _ & Po).
  rewrite Po, Lg by discriminate. intros Hn. apply Hg.
  now destruct gas.
Qed.

Lemma appends_ext {A} (p : Event -> bool) (m m' : M A) :
  (forall s, m s = m' s) -> appends p m' -> appends p m.
Proof. intros E H s. rewrite E. apply H. Qed.

(** The Builder asks its factory's client for the simulation, the gas
    estimate (only without a gas override), the gas price and the chain id,
    and [web3.auto.w3] for the transaction count. *)
Lemma builder_appends W (p : Event -> bool) pf master_copy a init salt
    gas gas_price nonce :
  let c := factory_ethereum_client pf in
  (forall t, p (EvRpc c (Call t)) = true) ->
  (gas = None -> forall t, p (EvRpc c (EstimateGas t)) = true) ->
  p (EvRpc c GasPrice) = true -> p (EvRpc c ChainId) = true ->
  p (EvRpc AutoClient (GetTransactionCount a)) = true ->
  appends p (_build_tx_deploy_proxy_contract_with_nonce W pf master_copy a init
               salt gas gas_price nonce).
Proof.
  intros c Hc Hg Hp Hi Hn. rewrite builder_unfold.
  destruct (encode_createProxyWithNonce W master_copy init salt) as [e|d] eqn:E.
  - apply (appends_ext p _ (raise e)); [|apply appends_raise].
    intros s. cbv [mbind M_bind lift functions_createProxyWithNonce].
    now rewrite E.
  - apply (appends_ext p _
             (v ← fn_call W (create_proxy_fn pf d) {["from" := VStr a]};
              tx ← fn_buildTransaction W (create_proxy_fn pf d)
                     (builder_parameters a gas gas_price nonce);
              g ← getitem_int tx "gas";
              n ← client_get_transaction_count W AutoClient a;
              mret (<["nonce" := VInt n]> (<["gas" := VInt (g + 50000)]> tx),
                    v))).
    { intros s. cbv [mbind M_bind lift mret M_ret functions_createProxyWithNonce].
      now rewrite E. }
    apply appends_bind; [apply fn_call_appends, Hc | intros v].
    apply appends_bind;
      [apply build_parameters_appends; assumption | intros tx].
    unfold getitem_int, client_get_transaction_count.
    repeat appends_step ltac:(assumption).
Qed.

Lemma allowed_rpc c q :
  is_count_query q = false -> allowed_event c (EvRpc c q) = true.
Proof. intros H. simpl. rewrite H. apply client_eqb_refl. Qed.

Lemma builder_allowed W pf master_copy a init salt gas gas_price nonce :
  appends (allowed_event (factory_ethereum_client pf))
    (_build_tx_deploy_proxy_contract_with_nonce W pf master_copy a init salt
       gas gas_price nonce).
Proof.
  apply builder_appends; intros; try (now apply allowed_rpc); reflexivity.
Qed.

(** Lines 111-137: encoding the [setup] call and handing over to the
    Builder. *)
Lemma planner_build_appends W url owners threshold salt a :
  appends (allowed_event (NodeClient url))
    (setup_fn ← functions_setup W
                  (get_safe_V1_3_0_contract (NodeClient url) SAFE_CONTRACT)
                  owners threshold NULL_ADDRESS [] DEFAULT_CALLBACK_HANDLER
                  NULL_ADDRESS 0 NULL_ADDRESS;
     setup_tx ← fn_buildTransaction W setup_fn
                  (<["gasPrice" := VInt 1]> {["gas" := VInt 1]});
     safe_creation_tx_data ← getitem_bytes setup_tx "data";
     _build_tx_deploy_proxy_contract_with_nonce W
       {| factory_address := PROXY_FACTORY_CONTRACT;
          factory_ethereum_client := NodeClient url |}
       SAFE_CONTRACT a safe_creation_tx_data salt None None None).
Proof.
  set (p := allowed_event (NodeClient url)).
  destruct (encode_setup W owners threshold NULL_ADDRESS []
              DEFAULT_CALLBACK_HANDLER NULL_ADDRESS 0 NULL_ADDRESS)
    as [e|d] eqn:E.
  - apply (appends_ext p _ (raise e)); [|apply appends_raise].
    intros s. cbv [mbind M_bind lift functions_setup]. now rewrite E.
  - set (f := {| fn_contract :=
                   get_safe_V1_3_0_contract (NodeClient url) SAFE_CONTRACT;
                 fn_data := d |}).
    apply (appends_ext p _
             (setup_tx ← fn_buildTransaction W f
                          (<["gasPrice" := VInt 1]> {["gas" := VInt 1]});
              safe_creation_tx_data ← getitem_bytes setup_tx "data";
              _build_tx_deploy_proxy_contract_with_nonce W
                {| factory_address := PROXY_FACTORY_CONTRACT;
                   factory_ethereum_client := NodeClient url |}
                SAFE_CONTRACT a safe_creation_tx_data salt None None None)).
    { intros s. cbv [mbind M_bind lift mret M_ret functions_setup].
      now rewrite E. }
    apply appends_bind; [|intros tx].
    + unfold fn_buildTransaction. dict.
      apply fill_appends; try (now apply allowed_rpc).
      unfold prepare_transaction. rewrite setdefault_absent by now dict.
      dict. discriminate.
    + unfold getitem_bytes.
      apply appends_bind; [repeat appends_step idtac | intros data].
      apply (builder_allowed W
               {| factory_address := PROXY_FACTORY_CONTRACT;
                  factory_ethereum_client := NodeClient url |}).
Qed.

Lemma after_balance_query_appends W url owners threshold salt cache a b :
  appends (allowed_event (NodeClient url))
    (after_balance_query W url owners threshold salt cache a b).
Proof.
  unfold after_balance_query, cached_get_network, client_get_network,
    client_getCode.
  repeat first [ apply planner_build_appends | appends_step allowed_side ].
Qed.

(** The Planner as the salt selection, the threshold check, the
    construction of the client, the checksum, the balance query and what
    follows. *)
Lemma planner_unfold W url sender owners threshold salt_nonce s :
  get_deploy_safe_tx W url sender owners threshold salt_nonce s
  = (if Z.of_nat (length owners) <? threshold then raise InvalidThreshold
     else
       cache ← EthereumClient_init W (NodeClient url);
       a ← lift (checksum_address W sender);
       b ← client_get_balance W (NodeClient url) a;
       after_balance_query W url owners threshold
         (salt_of W salt_nonce s) cache a b) (after_salt salt_nonce s).
Proof. destruct salt_nonce; reflexivity. Qed.

Lemma planner_appends W url sender owners threshold salt_nonce s :
  let out := get_deploy_safe_tx W url sender owners threshold salt_nonce s in
  draws (fst out) = draws (after_salt salt_nonce s)
  /\ exists es, trace (fst out) = trace (after_salt salt_nonce s) ++ es
                /\ forallb (allowed_event (NodeClient url)) es = true.
Proof.
  intros out. unfold out. rewrite planner_unfold.
  generalize (after_salt salt_nonce s). generalize (salt_of W salt_nonce s).
  intros salt. change (appends (allowed_event (NodeClient url))
    (if Z.of_nat (length owners) <? threshold then raise InvalidThreshold
     else
       cache ← EthereumClient_init W (NodeClient url);
       a ← lift (checksum_address W sender);
       b ← client_get_balance W (NodeClient url) a;
       after_balance_query W url owners threshold salt cache a b)).
  unfold EthereumClient_init, client_get_balance.
  repeat first [ apply after_balance_query_appends
               | appends_step allowed_side ].
Qed.

Lemma allowed_node_event c e :
  allowed_event c e = true -> node_event c e = true.
Proof.
  destruct e as [[u|] q| |]; simpl; try reflexivity; try discriminate.
  destruct (is_count_query q); simpl; [discriminate|].
  intros H. now rewrite H.
Qed.

Lemma forallb_impl {X} (p q : X -> bool) (l : list X) :
  (forall x, p x = true -> q x = true) -> forallb p l = true ->
  forallb q l = true.
Proof.
  intros H Hp. apply forallb_forall. intros x Hx.
  apply H. now apply (proj1 (forallb_forall p l) Hp).
Qed.

(** ** Failures of the environment during the checks *)

(** X1: when the node has answered the network lookup of the client's
    constructor and the sender's address cannot be checksummed, the Planner fails with the error of
    [checksum_address]; the network lookup of the constructor is the only
    chain query made, the balance is never asked for. *)
Theorem checksum_failure_before_balance W url sender owners threshold
    salt_nonce net e :
  threshold <= Z.of_nat (length owners) ->
  get_network (EthereumClient W url) = inr net ->
  checksum_address W sender = inl e ->
  let m := get_deploy_safe_tx W url sender owners threshold salt_nonce in
  result m = inl e /\ rpcs m = [EvRpc (NodeClient url) GetNetwork].
Proof.
  intros Hle Hn He m. unfold m, result, rpcs, run. rewrite planner_unfold.
  apply Z.ltb_ge in Hle. rewrite Hle.
  cbv [mbind M_bind lift EthereumClient_init ask emit]. cbn [client].
  rewrite Hn, He. simpl.
  split; [reflexivity|].
  now rewrite chain_calls_log_rpc, chain_calls_after_salt.
Qed.

Lemma checksum_failure_before_balance_witness :
  let m := get_deploy_safe_tx Strict.world "http://node:8545" "not an address"
             [Sample.alice; Sample.bob] 2 None in
  result m = inl (ValueError "invalid address")
  /\ rpcs m = [EvRpc (NodeClient "http://node:8545") GetNetwork].
Proof.
  apply (checksum_failure_before_balance Strict.world "http://node:8545"
           "not an address" [Sample.alice; Sample.bob] 2 None "GOERLI"
           (ValueError "invalid address")).
  - simpl; lia.
  - reflexivity.
  - reflexivity.
Defined.

(** X2: when the node has answered the network lookup of the client's
    constructor and the balance query fails,
    the Planner fails with the error of the node; the node has been asked
    for its network and for the balance, once each, and for nothing
    else. *)
Theorem balance_failure_propagates W url sender owners threshold salt_nonce
    net a e :
  threshold <= Z.of_nat (length owners) ->
  get_network (EthereumClient W url) = inr net ->
  checksum_address W sender = inr a ->
  get_balance (EthereumClient W url) a = inl e ->
  let m := get_deploy_safe_tx W url sender owners threshold salt_nonce in
  result m = inl e
  /\ rpcs m = [EvRpc (NodeClient url) GetNetwork;
               EvRpc (NodeClient url) (GetBalance a)].
Proof.
  intros Hle Hn Ha He m. unfold m, result, rpcs, run. rewrite planner_unfold.
  apply Z.ltb_ge in Hle. rewrite Hle.
  cbv [mbind M_bind lift EthereumClient_init client_get_balance ask emit].
  cbn [client]. rewrite Hn. cbv beta iota delta [construction].
  rewrite Ha, He. simpl.
  split; [reflexivity|].
  rewrite !log_is_logs, !logs_logs.
  now rewrite chain_calls_logs, chain_calls_after_salt.
Qed.

Lemma balance_failure_propagates_witness :
  let m := get_deploy_safe_tx Strict.world "http://nobalance:8545"
             Sample.sender [Sample.alice; Sample.bob] 2 (Some 42) in
  result m = inl (ClientError "missing trie node")
  /\ rpcs m = [EvRpc (NodeClient "http://nobalance:8545") GetNetwork;
               EvRpc (NodeClient "http://nobalance:8545")
                     (GetBalance Sample.sender)].
Proof.
  apply (balance_failure_propagates Strict.world "http://nobalance:8545"
           Sample.sender [Sample.alice; Sample.bob] 2 (Some 42)
           "GOERLI" Sample.sender (ClientError "missing trie node")).
  - simpl; lia.
  - reflexivity.
  - reflexivity.
  - reflexivity.
Defined.

(** X3: when the network lookup made by the constructor of the client
    fails with an error other than an [IOError], the Planner fails with
    that error inside the constructor: the lookup is the only chain query
    made; the sender is not checksummed and the balance is not asked for,
    whatever funds the sender has. *)
Theorem constructor_failure_aborts W url sender owners threshold salt_nonce e :
  threshold <= Z.of_nat (length owners) ->
  get_network (EthereumClient W url) = inl e ->
  (forall msg, e <> IOError msg) ->
  let m := get_deploy_safe_tx W url sender owners threshold salt_nonce in
  result m = inl e /\ rpcs m = [EvRpc (NodeClient url) GetNetwork].
Proof.
  intros Hle He Hio m. unfold m, result, rpcs, run. rewrite planner_unfold.
  apply Z.ltb_ge in Hle. rewrite Hle.
  cbv [mbind M_bind lift EthereumClient_init ask emit]. cbn [client].
  rewrite He.
  assert (Hc : construction (inl e) = inl e)
    by (destruct e; try reflexivity; now destruct (Hio msg)).
  rewrite Hc. simpl. split; [reflexivity|].
  now rewrite chain_calls_log_rpc, chain_calls_after_salt.
Qed.

Lemma constructor_failure_aborts_witness :
  let m := get_deploy_safe_tx Strict.world "http://nameless:8545" Sample.sender
             [Sample.alice; Sample.bob] 2 (Some 42) in
  get_balance (EthereumClient Strict.world "http://nameless:8545")
    Sample.sender = inr (10 ^ 18)
  /\ result m = inl (ClientError "unknown chain id")
  /\ rpcs m = [EvRpc (NodeClient "http://nameless:8545") GetNetwork].
Proof.
  split; [reflexivity|].
  apply (constructor_failure_aborts Strict.world "http://nameless:8545"
           Sample.sender [Sample.alice; Sample.bob] 2 (Some 42)
           (ClientError "unknown chain id")).
  - simpl; lia.
  - reflexivity.
  - intros msg; discriminate.
Defined.

(** ** The threshold check, exactly *)

Lemma passing_validation_queries_node W url sender owners threshold
    salt_nonce :
  threshold <= Z.of_nat (length owners) ->
  let m := get_deploy_safe_tx W url sender owners threshold salt_nonce in
  (exists es, rpcs m = EvRpc (NodeClient url) GetNetwork :: es)
  /\ (forall cache a,
        construction (get_network (EthereumClient W url)) = inr cache ->
        checksum_address W sender = inr a ->
        exists es, rpcs m = EvRpc (NodeClient url) GetNetwork
                            :: EvRpc (NodeClient url) (GetBalance a) :: es).
Proof.
  intros Hle m. unfold m, rpcs, run. rewrite planner_unfold.
  apply Z.ltb_ge in Hle. rewrite Hle.
  cbv [mbind M_bind lift EthereumClient_init client_get_balance ask emit].
  cbn [client].
  set (s1 := log (EvRpc (NodeClient url) GetNetwork)
               (after_salt salt_nonce st0)).
  assert (C1 : chain_calls s1 = [EvRpc (NodeClient url) GetNetwork])
    by (unfold s1; now rewrite chain_calls_log_rpc, chain_calls_after_salt).
  assert (K : forall cache a,
            exists es,
              chain_calls
                (fst (match get_balance (EthereumClient W url) a with
                      | inl e =>
                          (log (EvRpc (NodeClient url) (GetBalance a)) s1,
                           inl e)
                      | inr b =>
                          after_balance_query W url owners threshold
                            (salt_of W salt_nonce st0) cache a b
                            (log (EvRpc (NodeClient url) (GetBalance a)) s1)
                      end))
              = EvRpc (NodeClient url) GetNetwork
                :: EvRpc (NodeClient url) (GetBalance a) :: es).
  { intros cache a.
    destruct (get_balance (EthereumClient W url) a) as [e|b]; cbn [fst].
    - exists []. now rewrite chain_calls_log_rpc, C1.
    - destruct (after_balance_query_appends W url owners threshold
                  (salt_of W salt_nonce st0) cache a b
                  (log (EvRpc (NodeClient url) (GetBalance a)) s1))
        as (_ & es & Ht & _).
      exists (List.filter is_rpc es). unfold chain_calls at 1. rewrite Ht.
      rewrite List.filter_app.
      fold (chain_calls (log (EvRpc (NodeClient url) (GetBalance a)) s1)).
      now rewrite chain_calls_log_rpc, C1. }
  split.
  - destruct (construction (get_network (EthereumClient W url)))
      as [e|cache]; cbn [fst].
    + now exists [].
    + destruct (checksum_address W sender) as [e|a]; cbn [fst].
      * now exists [].
      * destruct (K cache a) as (es & Hes). rewrite Hes. eauto.
  - intros cache a Hc Ha. rewrite Hc, Ha. apply K.
Qed.

(** X4: the Planner stops with [InvalidThreshold] before any chain query
    exactly when the threshold exceeds the length of the owner list.  A
    threshold equal to that length passes, and so does any threshold below
    it, zero and negative ones included: the client is then constructed,
    its network lookup being the first chain query, and once the node has
    answered it and the sender is checksummed the balance is queried
    next. *)
Theorem rejected_iff_threshold_above_length W url sender owners threshold
    salt_nonce :
  let m := get_deploy_safe_tx W url sender owners threshold salt_nonce in
  (rejected_before_chain_io m <-> Z.of_nat (length owners) < threshold)
  /\ (threshold <= Z.of_nat (length owners) ->
      exists es, rpcs m = EvRpc (NodeClient url) GetNetwork :: es)
  /\ (forall net a,
        threshold <= Z.of_nat (length owners) ->
        get_network (EthereumClient W url) = inr net ->
        checksum_address W sender = inr a ->
        exists es, rpcs m = EvRpc (NodeClient url) GetNetwork
                            :: EvRpc (NodeClient url) (GetBalance a) :: es).
Proof.
  intros m. split; [split|split].
  - intros [_ Hr].
    destruct (Z.lt_ge_cases (Z.of_nat (length owners)) threshold) as [|Hle];
      [assumption|].
    destruct (passing_validation_queries_node W url sender owners threshold
                salt_nonce Hle) as [(es & Hq) _].
    fold m in Hq. rewrite Hq in Hr. discriminate.
  - intros Hlt. unfold m, rejected_before_chain_io, result, rpcs, run.
    rewrite planner_threshold_run by assumption. simpl.
    split; [reflexivity | apply chain_calls_after_salt].
  - intros Hle.
    apply (passing_validation_queries_node W url sender owners threshold
             salt_nonce Hle).
  - intros net a Hle Hn.
    apply (proj2 (passing_validation_queries_node W url sender owners
                    threshold salt_nonce Hle) (Some net) a).
    now rewrite Hn.
Qed.

Lemma rejected_iff_threshold_above_length_witness :
  let m := get_deploy_safe_tx Sample.world "http://bare:8545" Sample.sender
             [Sample.alice; Sample.bob] 0 None in
  exists es,
    rpcs m = EvRpc (NodeClient "http://bare:8545") GetNetwork
             :: EvRpc (NodeClient "http://bare:8545") (GetBalance Sample.sender)
             :: es.
Proof.
  apply (proj2 (proj2 (rejected_iff_threshold_above_length Sample.world
                         "http://bare:8545" Sample.sender
                         [Sample.alice; Sample.bob] 0 None))
           "UNKNOWN" Sample.sender).
  - simpl; lia.
  - reflexivity.
  - reflexivity.
Defined.

(** ** What a returned transaction guarantees *)

(** X5: the Planner returns a transaction only if every check has passed:
    the threshold is at most the length of the owner list, the node has
    reported a balance other than zero for the checksummed sender, and
    non-empty code at the master copy and at the proxy factory. *)
Theorem returns_only_after_checks W url sender owners threshold salt_nonce
    s s' tx v :
  get_deploy_safe_tx W url sender owners threshold salt_nonce s
  = (s', inr (tx, v)) ->
  let node := EthereumClient W url in
  threshold <= Z.of_nat (length owners)
  /\ exists a b c1 c2,
       checksum_address W sender = inr a
       /\ get_balance node a = inr b /\ b <> 0
       /\ getCode node SAFE_CONTRACT = inr c1 /\ c1 <> []
       /\ getCode node PROXY_FACTORY_CONTRACT = inr c2 /\ c2 <> [].
Proof.
  rewrite planner_unfold. intros H node.
  destruct (Z.of_nat (length owners) <? threshold) eqn:Hle; [discriminate|].
  apply Z.ltb_ge in Hle. split; [assumption|].
  revert H. unfold after_balance_query.
  cbv [mbind M_bind mret M_ret raise lift ask emit EthereumClient_init
       cached_get_network client_get_balance client_get_network
       client_getCode].
  cbn [client]. fold node.
  destruct (construction (get_network node)) as [e|cache]; [discriminate|].
  destruct (checksum_address W sender) as [e|a]; [discriminate|].
  destruct (get_balance node a) as [e|b] eqn:Hb; [discriminate|].
  destruct (b =? 0) eqn:Hnz; [discriminate|]. apply Z.eqb_neq in Hnz.
  destruct (fromWei_round6 W b) as [e|eth]; [discriminate|].
  destruct cache as [net|];
    [|destruct (get_network node) as [e|net]; [discriminate|]];
    (destruct (getCode node SAFE_CONTRACT) as [e|[|x1 c1]] eqn:H1;
     [discriminate|discriminate|]);
    (destruct (getCode node PROXY_FACTORY_CONTRACT) as [e|[|x2 c2]] eqn:H2;
     [discriminate|discriminate|]);
    intros _; exists a, b, (x1 :: c1), (x2 :: c2);
    repeat split; try assumption; discriminate.
Qed.

Lemma returns_only_after_checks_witness :
  2 <= Z.of_nat (length [Sample.alice; Sample.bob; Sample.carol])
  /\ exists a b c1 c2,
       checksum_address Sample.world Sample.sender = inr a
       /\ get_balance (EthereumClient Sample.world "http://node:8545") a = inr b
       /\ b <> 0
       /\ getCode (EthereumClient Sample.world "http://node:8545")
            SAFE_CONTRACT = inr c1
       /\ c1 <> []
       /\ getCode (EthereumClient Sample.world "http://node:8545")
            PROXY_FACTORY_CONTRACT = inr c2
       /\ c2 <> [].
Proof.
  apply (returns_only_after_checks Sample.world "http://node:8545"
           Sample.sender [Sample.alice; Sample.bob; Sample.carol] 2 (Some 42)
           st0
           (fst (run (get_deploy_safe_tx Sample.world "http://node:8545"
                        Sample.sender
                        [Sample.alice; Sample.bob; Sample.carol] 2 (Some 42))))
           (planned_transaction PROXY_FACTORY_CONTRACT Sample.sender
              (payload Sample.answers) 250000 20 5 3)
           Sample.predicted).
  vm_compute. reflexivity.
Defined.

(** X6: on a request that passes every check, with the environment
    answering, the Planner returns: the transaction goes from the
    checksummed sender to the proxy factory, has the node's estimate plus
    50000 as gas limit, and comes with the address the simulated call
    returned. *)
Theorem planner_returns_deployment W url sender owners threshold salt_nonce r :
  answered W url sender owners threshold (salt_of W salt_nonce st0) r ->
  checks_pass threshold owners r ->
  let out := result (get_deploy_safe_tx W url sender owners threshold
                       salt_nonce) in
  returned_address out = Some (proxy r)
  /\ field "from" out = Some (VStr (account r))
  /\ field "to" out = Some (VStr PROXY_FACTORY_CONTRACT)
  /\ field "gas" out = Some (VInt (estimate r + 50000)).
Proof.
  intros Ha Hc out. unfold out, result, run.
  rewrite (planner_run W url sender owners threshold salt_nonce st0 r Ha Hc).
  cbn [snd returned_address field].
  destruct (planned_transaction_lookup PROXY_FACTORY_CONTRACT (account r)
              (payload r) (estimate r) (price r) (chain r) (count r))
    as (_ & Lg & _ & Lt & Lf).
  unfold planned_transaction, call_transaction.
  repeat split; first [assumption | now dict].
Qed.

Lemma planner_returns_deployment_witness :
  let out := result (get_deploy_safe_tx Sample.world "http://node:8545"
                       Sample.sender [Sample.alice; Sample.bob; Sample.carol]
                       2 (Some 42)) in
  returned_address out = Some Sample.predicted
  /\ field "from" out = Some (VStr Sample.sender)
  /\ field "to" out = Some (VStr PROXY_FACTORY_CONTRACT)
  /\ field "gas" out = Some (VInt (250000 + 50000)).
Proof.
  apply (planner_returns_deployment Sample.world "http://node:8545"
           Sample.sender [Sample.alice; Sample.bob; Sample.carol] 2 (Some 42)
           Sample.answers);
    sample_run.
Defined.

(** ** Which client is asked, and when the random source is used *)

(** X7: in every run of the Planner, whatever its outcome, every query
    sent to a node built from a URL goes to the node of
    [ethereum_node_url], and none of them asks for the transaction count.
    A call of the random source, if there is one, is the first event of the
    run. *)
Theorem planner_queries_its_node W url sender owners threshold salt_nonce :
  let m := get_deploy_safe_tx W url sender owners threshold salt_nonce in
  (exists es,
     events m = match salt_nonce with
                | Some _ => []
                | None => [EvSystemRandom 0 (2 ^ 256 - 1)]
                end ++ es
     /\ forallb (node_event (NodeClient url)) es = true)
  /\ List.existsb is_node_count_query (events m) = false.
Proof.
  intros m. unfold m, events, run.
  destruct (planner_appends W url sender owners threshold salt_nonce st0)
    as (_ & es & Ht & Hp).
  assert (E : trace (after_salt salt_nonce st0)
              = match salt_nonce with
                | Some _ => []
                | None => [EvSystemRandom 0 (2 ^ 256 - 1)]
                end) by (destruct salt_nonce; reflexivity).
  rewrite E in Ht. split.
  - exists es. split; [assumption|].
    now apply (forallb_impl _ _ es (allowed_node_event (NodeClient url))).
  - rewrite Ht, existsb_app.
    assert (N : List.existsb is_node_count_query es = false).
    { clear Ht. induction es as [|e es IH]; [reflexivity|]. simpl in *.
      apply andb_prop in Hp as [He Hes].
      rewrite (allowed_not_node_count _ _ He). now apply IH. }
    rewrite N. now destruct salt_nonce.
Qed.

(** X8: the Planner draws from the random source exactly once when no salt
    is supplied and never when one is, in every run, also those that end in
    an error: a request that is rejected has used up a draw all the same. *)
Theorem planner_draws W url sender owners threshold salt_nonce :
  let m := get_deploy_safe_tx W url sender owners threshold salt_nonce in
  List.filter is_draw (events m)
  = match salt_nonce with
    | Some _ => []
    | None => [EvSystemRandom 0 (2 ^ 256 - 1)]
    end
  /\ draws (fst (run m)) = match salt_nonce with
                           | Some _ => 0%nat
                           | None => 1%nat
                           end.
Proof.
  intros m. unfold m, events, run.
  destruct (planner_appends W url sender owners threshold salt_nonce st0)
    as (Hd & es & Ht & Hp).
  rewrite Hd, Ht, List.filter_app.
  rewrite (filter_none _ is_draw es (allowed_not_draw (NodeClient url)) Hp).
  now destruct salt_nonce.
Qed.

(** X9: in every run of the Builder, whatever its outcome and its
    overrides, every query sent to a node built from a URL goes to the
    client of the proxy factory the Builder was given, and none of them
    asks for the transaction count; the Builder does not call the random
    source. *)
Theorem builder_queries_factory_client W pf master_copy a init salt
    gas gas_price nonce s :
  let out := _build_tx_deploy_proxy_contract_with_nonce W pf master_copy a
               init salt gas gas_price nonce s in
  draws (fst out) = draws s
  /\ exists es, trace (fst out) = trace s ++ es
                /\ forallb (node_event (factory_ethereum_client pf)) es = true.
Proof.
  intros out.
  destruct (builder_allowed W pf master_copy a init salt gas gas_price nonce s)
    as (Hd & es & Ht & Hp).
  split; [exact Hd|]. exists es. split; [exact Ht|].
  now apply (forallb_impl _ _ es
               (allowed_node_event (factory_ethereum_client pf))).
Qed.

(** X10: with a gas override the Builder never asks a node for a gas
    estimate, in any run. *)
Theorem gas_override_skips_estimate W pf master_copy a init salt
    g gas_price nonce s :
  let out := _build_tx_deploy_proxy_contract_with_nonce W pf master_copy a
               init salt (Some g) gas_price nonce s in
  exists es, trace (fst out) = trace s ++ es
             /\ List.existsb is_estimate_query es = false.
Proof.
  intros out.
  destruct (builder_appends W (fun e => negb (is_estimate_query e)) pf
              master_copy a init salt (Some g) gas_price nonce)
    with (s := s) as (_ & es & Ht & Hp);
    try reflexivity; try discriminate.
  exists es. split; [exact Ht|].
  clear Ht. induction es as [|e es IH]; [reflexivity|]. simpl in *.
  apply andb_prop in Hp as [He Hes]. apply negb_true_iff in He.
  rewrite He. now apply IH.
Qed.

(** Without the override the estimate is asked for: the sample run. *)
Example estimate_asked_without_override :
  List.existsb is_estimate_query
    (events (_build_tx_deploy_proxy_contract_with_nonce Sample.world
               Sample.factory SAFE_CONTRACT Sample.sender [Byte.x01] 42
               None None None))
  = true.
Proof. vm_compute. reflexivity. Qed.

(** ** The transaction the Builder returns *)

Lemma builder_parameters_gas_price a gas gas_price nonce :
  builder_parameters a gas gas_price nonce !! "gasPrice" = VInt <$> gas_price.
Proof.
  unfold builder_parameters, override.
  destruct gas, gas_price, nonce; simpl; now dict.
Qed.

Lemma builder_keeps_gas_price W pf master_copy a init salt gas p nonce
    s s' tx v :
  _build_tx_deploy_proxy_contract_with_nonce W pf master_copy a init salt
    gas (Some p) nonce s = (s', inr (tx, v)) ->
  tx !! "gasPrice" = Some (VInt p).
Proof.
  rewrite builder_unfold.
  cbv [mbind M_bind mret M_ret lift functions_createProxyWithNonce].
  destruct (encode_createProxyWithNonce W master_copy init salt) as [e|d];
    [discriminate|].
  fold (create_proxy_fn pf d).
  rewrite fn_call_run by now dict. rewrite prepare_from. simpl.
  destruct (eth_call _ _) as [e|v']; [discriminate|].
  rewrite build_parameters_run.
  destruct (fill_transaction_defaults _ _ _ _) as [s2 [e|tx2]] eqn:Ef;
    [discriminate|].
  destruct (build_gas_limit _ _ _ _ _ _ _ _ _ Ef) as (g & Lg & _).
  apply fill_inv in Ef as [Keep _].
  destruct (builder_parameters_lookup a gas (Some p) nonce) as (_ & Ht & _).
  destruct (prepare_lookup (create_proxy_fn pf d) _ Ht) as (_ & _ & Po).
  unfold getitem_int. rewrite Lg.
  cbv [mret M_ret client_get_transaction_count ask mbind M_bind emit lift].
  simpl. destruct (get_transaction_count (w3 W) a) as [e|n]; [discriminate|].
  intros H. inversion H; subst; clear H.
  dict. apply Keep. rewrite Po by discriminate.
  apply builder_parameters_gas_price.
Qed.

(** X11: given an encodable call, a simulation that succeeds, a node that
    quotes and a transaction count, the Builder returns, for every choice
    of overrides, a transaction from the sender to the proxy factory whose
    data is the encoded [createProxyWithNonce] call. *)
Theorem builder_envelope W pf master_copy a init salt gas gas_price nonce
    s d v n :
  let node := client W (factory_ethereum_client pf) in
  encode_createProxyWithNonce W master_copy init salt = inr d ->
  eth_call node (call_transaction (factory_address pf) a d) = inr v ->
  quotes node ->
  get_transaction_count (w3 W) a = inr n ->
  exists s' tx,
    _build_tx_deploy_proxy_contract_with_nonce W pf master_copy a init salt
      gas gas_price nonce s = (s', inr (tx, v))
    /\ tx !! "from" = Some (VStr a)
    /\ tx !! "to" = Some (VStr (factory_address pf))
    /\ tx !! "data" = Some (VBytes d).
Proof.
  intros node Ed Ev Hq En.
  destruct (builder_returns W pf master_copy a init salt gas gas_price nonce
              s d v n Ed Ev Hq En) as (s' & tx & H).
  exists s', tx. split; [exact H|].
  apply builder_inv in H
    as (d' & g & n' & Hd & _ & _ & _ & _ & _ & Ld & Lt & Lf & _).
  rewrite Ed in Hd. inversion Hd; subst d'. auto.
Qed.

Lemma builder_envelope_witness :
  exists s' tx,
    _build_tx_deploy_proxy_contract_with_nonce Sample.world Sample.factory
      SAFE_CONTRACT Sample.sender [Byte.x01] 42 (Some 100000) (Some 30) (Some 9) st0
    = (s', inr (tx, Sample.predicted))
    /\ tx !! "from" = Some (VStr Sample.sender)
    /\ tx !! "to" = Some (VStr PROXY_FACTORY_CONTRACT)
    /\ tx !! "data"
       = Some (VBytes [Byte.x16; Byte.x88; Byte.xf0; Byte.xb9; Byte.x2a;
                       Byte.x01]).
Proof.
  apply (builder_envelope Sample.world Sample.factory SAFE_CONTRACT Sample.sender
           [Byte.x01] 42 (Some 100000) (Some 30) (Some 9) st0
           [Byte.x16; Byte.x88; Byte.xf0; Byte.xb9; Byte.x2a; Byte.x01]
           Sample.predicted 3).
  - reflexivity.
  - reflexivity.
  - repeat split; intros; eexists; reflexivity.
  - reflexivity.
Defined.

(** X12: under the same conditions the gas limit of the returned
    transaction is 50000 above the override when one is given, and 50000
    above the node's estimate for the prepared transaction otherwise. *)
Theorem builder_gas_rule W pf master_copy a init salt gas gas_price nonce
    s d v n :
  let node := client W (factory_ethereum_client pf) in
  encode_createProxyWithNonce W master_copy init salt = inr d ->
  eth_call node (call_transaction (factory_address pf) a d) = inr v ->
  quotes node ->
  get_transaction_count (w3 W) a = inr n ->
  exists s' tx g,
    _build_tx_deploy_proxy_contract_with_nonce W pf master_copy a init salt
      gas gas_price nonce s = (s', inr (tx, v))
    /\ tx !! "gas" = Some (VInt (g + 50000))
    /\ match gas with
       | Some g' => g = g'
       | None =>
           estimateGas node
             (prepare_transaction (create_proxy_fn pf d)
                (builder_parameters a None gas_price nonce)) = inr g
       end.
Proof.
  intros node Ed Ev Hq En.
  destruct (builder_returns W pf master_copy a init salt gas gas_price nonce
              s d v n Ed Ev Hq En) as (s' & tx & H).
  pose proof H as H'.
  apply builder_inv in H' as (d' & g & n' & Hd & _ & Hg & _ & Lg & _).
  rewrite Ed in Hd. inversion Hd; subst d'.
  exists s', tx, g. repeat split; try assumption.
  now destruct gas.
Qed.

Lemma builder_gas_rule_witness :
  exists s' tx g,
    _build_tx_deploy_proxy_contract_with_nonce Sample.world Sample.factory
      SAFE_CONTRACT Sample.sender [Byte.x01] 42 (Some 100000) None None st0
    = (s', inr (tx, Sample.predicted))
    /\ tx !! "gas" = Some (VInt (g + 50000)) /\ g = 100000.
Proof.
  apply (builder_gas_rule Sample.world Sample.factory SAFE_CONTRACT Sample.sender
           [Byte.x01] 42 (Some 100000) None None st0
           [Byte.x16; Byte.x88; Byte.xf0; Byte.xb9; Byte.x2a; Byte.x01]
           Sample.predicted 3).
  - reflexivity.
  - reflexivity.
  - repeat split; intros; eexists; reflexivity.
  - reflexivity.
Defined.

(** X13: under the same conditions the nonce of the returned transaction
    is the transaction count that [web3.auto.w3] reports for the sender,
    with or without a nonce override. *)
Theorem builder_nonce_rule W pf master_copy a init salt gas gas_price nonce
    s d v n :
  let node := client W (factory_ethereum_client pf) in
  encode_createProxyWithNonce W master_copy init salt = inr d ->
  eth_call node (call_transaction (factory_address pf) a d) = inr v ->
  quotes node ->
  get_transaction_count (w3 W) a = inr n ->
  exists s' tx,
    _build_tx_deploy_proxy_contract_with_nonce W pf master_copy a init salt
      gas gas_price nonce s = (s', inr (tx, v))
    /\ tx !! "nonce" = Some (VInt n).
Proof.
  intros node Ed Ev Hq En.
  destruct (builder_returns W pf master_copy a init salt gas gas_price nonce
              s d v n Ed Ev Hq En) as (s' & tx & H).
  exists s', tx. split; [exact H|].
  apply builder_inv in H as (_ & _ & n' & _ & _ & _ & Hn & _ & Ln & _).
  congruence.
Qed.

Lemma builder_nonce_rule_witness :
  exists s' tx,
    _build_tx_deploy_proxy_contract_with_nonce Sample.world Sample.factory
      SAFE_CONTRACT Sample.sender [Byte.x01] 42 None None (Some 9) st0
    = (s', inr (tx, Sample.predicted))
    /\ tx !! "nonce" = Some (VInt 3).
Proof.
  apply (builder_nonce_rule Sample.world Sample.factory SAFE_CONTRACT Sample.sender
           [Byte.x01] 42 None None (Some 9) st0
           [Byte.x16; Byte.x88; Byte.xf0; Byte.xb9; Byte.x2a; Byte.x01]
           Sample.predicted 3).
  - reflexivity.
  - reflexivity.
  - repeat split; intros; eexists; reflexivity.
  - reflexivity.
Defined.

(** X14: under the same conditions a gas price override is returned as the
    gas price of the transaction, unchanged. *)
Theorem builder_gas_price_rule W pf master_copy a init salt gas p nonce
    s d v n :
  let node := client W (factory_ethereum_client pf) in
  encode_createProxyWithNonce W master_copy init salt = inr d ->
  eth_call node (call_transaction (factory_address pf) a d) = inr v ->
  quotes node ->
  get_transaction_count (w3 W) a = inr n ->
  exists s' tx,
    _build_tx_deploy_proxy_contract_with_nonce W pf master_copy a init salt
      gas (Some p) nonce s = (s', inr (tx, v))
    /\ tx !! "gasPrice" = Some (VInt p).
Proof.
  intros node Ed Ev Hq En.
  destruct (builder_returns W pf master_copy a init salt gas (Some p) nonce
              s d v n Ed Ev Hq En) as (s' & tx & H).
  exists s', tx. split; [exact H|].
  now apply builder_keeps_gas_price in H.
Qed.

Lemma builder_gas_price_rule_witness :
  exists s' tx,
    _build_tx_deploy_proxy_contract_with_nonce Sample.world Sample.factory
      SAFE_CONTRACT Sample.sender [Byte.x01] 42 None (Some 30) None st0
    = (s', inr (tx, Sample.predicted))
    /\ tx !! "gasPrice" = Some (VInt 30).
Proof.
  apply (builder_gas_price_rule Sample.world Sample.factory SAFE_CONTRACT Sample.sender
           [Byte.x01] 42 None 30 None st0
           [Byte.x16; Byte.x88; Byte.xf0; Byte.xb9; Byte.x2a; Byte.x01]
           Sample.predicted 3).
  - reflexivity.
  - reflexivity.
  - repeat split; intros; eexists; reflexivity.
  - reflexivity.
Defined.

(** ** Failures inside the Builder *)

(** X15: when the call cannot be encoded, the Builder fails with the
    encoder's error without a single query. *)
Theorem builder_encoding_failure W pf master_copy a init salt
    gas gas_price nonce s e :
  encode_createProxyWithNonce W master_copy init salt = inl e ->
  _build_tx_deploy_proxy_contract_with_nonce W pf master_copy a init salt
    gas gas_price nonce s = (s, inl e).
Proof.
  intros E. rewrite builder_unfold.
  cbv [mbind M_bind lift functions_createProxyWithNonce]. now rewrite E.
Qed.

Lemma builder_encoding_failure_witness :
  _build_tx_deploy_proxy_contract_with_nonce Strict.world
    (Strict.factory "http://node:8545") SAFE_CONTRACT Sample.sender
    [Byte.x01] (2 ^ 256) None None None st0
  = (st0, inl (ValueError "could not identify the intended function")).
Proof.
  apply (builder_encoding_failure Strict.world
           (Strict.factory "http://node:8545") SAFE_CONTRACT Sample.sender
           [Byte.x01] (2 ^ 256) None None None st0
           (ValueError "could not identify the intended function")).
  reflexivity.
Defined.

(** X16: when the simulated call fails, the Builder fails with the node's
    error; the simulation is the only query made, so neither a gas estimate
    nor the transaction count has been asked for, whatever the overrides. *)
Theorem builder_simulation_failure W pf master_copy a init salt
    gas gas_price nonce s d e :
  let c := factory_ethereum_client pf in
  let tx := call_transaction (factory_address pf) a d in
  encode_createProxyWithNonce W master_copy init salt = inr d ->
  eth_call (client W c) tx = inl e ->
  _build_tx_deploy_proxy_contract_with_nonce W pf master_copy a init salt
    gas gas_price nonce s
  = (log (EvRpc c (Call tx)) s, inl e).
Proof.
  intros c tx E Ev. rewrite builder_unfold.
  cbv [mbind M_bind mret M_ret lift functions_createProxyWithNonce].
  rewrite E. fold (create_proxy_fn pf d).
  rewrite fn_call_run by now dict. rewrite prepare_from. projections.
  fold c tx. now rewrite Ev.
Qed.

Lemma builder_simulation_failure_witness :
  _build_tx_deploy_proxy_contract_with_nonce Strict.world
    (Strict.factory "http://reverting:8545") SAFE_CONTRACT Sample.sender
    [Byte.x01] 42 (Some 100000) None (Some 9) st0
  = (log (EvRpc (NodeClient "http://reverting:8545")
                (Call (call_transaction PROXY_FACTORY_CONTRACT Sample.sender
                         [Byte.x16; Byte.x88; Byte.xf0; Byte.xb9; Byte.x2a;
                          Byte.x01])))
         st0,
     inl (ClientError "execution reverted")).
Proof.
  apply (builder_simulation_failure Strict.world
           (Strict.factory "http://reverting:8545") SAFE_CONTRACT
           Sample.sender [Byte.x01] 42 (Some 100000) None (Some 9) st0
           [Byte.x16; Byte.x88; Byte.xf0; Byte.xb9; Byte.x2a; Byte.x01]
           (ClientError "execution reverted")).
  - reflexivity.
  - reflexivity.
Defined.

(** ** The Planner hands over to the Builder *)

(** X17: once the checks have passed and the [setup] call is encoded, the
    outcome of the Planner is the outcome of the Builder, transaction or
    error, called without overrides on the proxy factory at
    [PROXY_FACTORY_CONTRACT] of the same node, with [SAFE_CONTRACT] as
    master copy, the checksummed sender, the encoded [setup] call as
    initializer and the selected salt.  Before the Builder starts, the node
    has been asked for its network (by the client's constructor), the
    balance, the code at the two addresses and the chain id, in this
    order. *)
Theorem planner_delegates_to_builder W url sender owners threshold salt_nonce
    s a b eth net c1 c2 init i :
  let node := EthereumClient W url in
  let salt := salt_of W salt_nonce s in
  threshold <= Z.of_nat (length owners) ->
  checksum_address W sender = inr a ->
  get_balance node a = inr b -> b <> 0 ->
  fromWei_round6 W b = inr eth ->
  get_network node = inr net ->
  getCode node SAFE_CONTRACT = inr c1 -> c1 <> [] ->
  getCode node PROXY_FACTORY_CONTRACT = inr c2 -> c2 <> [] ->
  encode_setup W owners threshold NULL_ADDRESS [] DEFAULT_CALLBACK_HANDLER
    NULL_ADDRESS 0 NULL_ADDRESS = inr init ->
  chainId node = inr i ->
  get_deploy_safe_tx W url sender owners threshold salt_nonce s
  = _build_tx_deploy_proxy_contract_with_nonce W
      {| factory_address := PROXY_FACTORY_CONTRACT;
         factory_ethereum_client := NodeClient url |}
      SAFE_CONTRACT a init salt None None None
      (logs (funds_events url a net eth ++ code_events url c1
               ++ [EvLog (LogCreating owners threshold
                            DEFAULT_CALLBACK_HANDLER salt);
                   EvRpc (NodeClient url) ChainId])
            (after_salt salt_nonce s)).
Proof.
  intros node salt Hle Ha Hb Hnz He Hn Hc1 Hn1 Hc2 Hn2 Hs Hi.
  rewrite planner_unfold. fold salt.
  generalize (after_salt salt_nonce s). intros s0.
  apply Z.ltb_ge in Hle. apply Z.eqb_neq in Hnz. rewrite Hle.
  unfold after_balance_query.
  cbv [mbind M_bind mret M_ret raise lift ask emit functions_setup
       EthereumClient_init cached_get_network
       client_get_balance client_get_network client_getCode].
  cbn [client]. fold node. rewrite Hn. cbv beta iota delta [construction].
  rewrite Ha, Hb, Hnz, He, Hc1.
  destruct c1 as [|x1 c1]; [congruence|].
  rewrite Hc2. destruct c2 as [|x2 c2]; [congruence|].
  rewrite Hs.
  match goal with
  | |- context [fn_buildTransaction W ?f ?t ?s1] =>
      pose proof (setup_data_run W
                    (get_safe_V1_3_0_contract (NodeClient url) SAFE_CONTRACT)
                    init s1 i Hi) as Hsetup;
      cbv [mbind M_bind] in Hsetup; revert Hsetup;
      destruct (fn_buildTransaction W f t s1) as [s2 [e|tx2]];
      intros Hsetup
  end; [inversion Hsetup|].
  rewrite Hsetup. projections.
  unfold funds_events, code_events.
  rewrite !log_is_logs, !logs_logs. reflexivity.
Qed.

Lemma planner_delegates_to_builder_witness :
  get_deploy_safe_tx Strict.world "http://reverting:8545" Sample.sender
    [Sample.alice; Sample.bob; Sample.carol] 2 (Some 42) st0
  = _build_tx_deploy_proxy_contract_with_nonce Strict.world
      (Strict.factory "http://reverting:8545") SAFE_CONTRACT Sample.sender
      Sample.setup_data 42 None None None
      (logs (funds_events "http://reverting:8545" Sample.sender "GOERLI" "1.0"
               ++ code_events "http://reverting:8545" Sample.code
               ++ [EvLog (LogCreating [Sample.alice; Sample.bob; Sample.carol]
                            2 DEFAULT_CALLBACK_HANDLER 42);
                   EvRpc (NodeClient "http://reverting:8545") ChainId])
            st0).
Proof.
  apply (planner_delegates_to_builder Strict.world "http://reverting:8545"
           Sample.sender [Sample.alice; Sample.bob; Sample.carol] 2 (Some 42)
           st0 Sample.sender (10 ^ 18) "1.0" "GOERLI" Sample.code Sample.code
           Sample.setup_data 5);
    sample_run.
Defined.
